(** * mongo-audit: the change-capture pipeline of [src/auditManager.js]

    A shallow embedding of the [AuditManager] class: the permission check
    [canRunCollMod], the provisioning step [ensurePreImageEnabled], the two
    phases [initialize] and [start], the record builder [createAuditDoc] and
    the per-event change handler.

    Documents that come back from the database are JavaScript values, so the
    permission check is embedded over an untyped value model and evaluated
    with JavaScript's own rules for truthiness, property access and method
    calls.  The driver (MongoClient, Db, ChangeStream) and the wall clock are
    collaborators outside the class: they appear as an oracle that answers
    from the history of effects so far. *)

From Stdlib Require Import List String Ascii Bool ZArith NArith Lia.
Import ListNotations.
Local Open Scope string_scope.
Local Open Scope Z_scope.
Local Open Scope list_scope.
Set Warnings "-register-all".

(** ** JavaScript values *)

Module JS.

(** Values as they arrive in BSON documents.  Numbers are restricted to
    integers ([0] is the only falsy one); documents hold no functions. *)
Inductive jsval : Type :=
| JUndefined
| JNull
| JBool (b : bool)
| JNum (z : Z)
| JStr (s : string)
| JArr (elems : list jsval)
| JObj (fields : list (string * jsval)).

Inductive exn : Type :=
| TypeError (msg : string)
| Error (msg : string)
| DriverError (msg : string)
| UserError (msg : string).

Definition message (e : exn) : string :=
  match e with
  | TypeError m | Error m | DriverError m | UserError m => m
  end.

Inductive result (A : Type) : Type :=
| Ok (a : A)
| Throw (e : exn).
Arguments Ok {A} a.
Arguments Throw {A} e.

Definition rbind {A B} (r : result A) (k : A -> result B) : result B :=
  match r with
  | Ok a => k a
  | Throw e => Throw e
  end.

Notation "x <-? r ;; k" := (rbind r (fun x => k))
  (at level 61, r at next level, right associativity).

(** [ToBoolean]. *)
Definition truthy (v : jsval) : bool :=
  match v with
  | JUndefined | JNull => false
  | JBool b => b
  | JNum z => negb (z =? 0)
  | JStr s => negb (s =? "")%string
  | JArr _ | JObj _ => true
  end.

(** [a || b] on values. *)
Definition js_or (a b : jsval) : jsval := if truthy a then a else b.

Fixpoint assoc (k : string) (fs : list (string * jsval)) : jsval :=
  match fs with
  | [] => JUndefined
  | (k', v) :: fs' => if (k =? k')%string then v else assoc k fs'
  end.

(** [v.k] for the property names the class reads ([inheritedPrivileges],
    [privileges], [roles], [inheritedRoles], [actions], [role], [_id],
    [authInfo], [authenticatedUsers], [users], [user], [db]): none of them is
    a built-in property of a primitive or of an array, so only objects can
    answer with something else than [undefined]; reading a property of
    [undefined] or [null] is a TypeError. *)
Definition cannotRead (what k : string) : exn :=
  TypeError ("Cannot read properties of " ++ what ++ " (reading '" ++ k ++ "')")%string.

Definition get (v : jsval) (k : string) : result jsval :=
  match v with
  | JUndefined => Throw (cannotRead "undefined" k)
  | JNull => Throw (cannotRead "null" k)
  | JObj fs => Ok (assoc k fs)
  | _ => Ok JUndefined
  end.

(** [v[0]]. *)
Definition get0 (v : jsval) : result jsval :=
  match v with
  | JUndefined => Throw (cannotRead "undefined" "0")
  | JNull => Throw (cannotRead "null" "0")
  | JArr l => Ok (hd JUndefined l)
  | JStr (String c _) => Ok (JStr (String c EmptyString))
  | JObj fs => Ok (assoc "0" fs)
  | _ => Ok JUndefined
  end.

Definition isArray (v : jsval) : bool :=
  match v with JArr _ => true | _ => false end.

(** Strict equality of a value with a string literal. *)
Definition is_str (x : string) (v : jsval) : bool :=
  match v with JStr s => (s =? x)%string | _ => false end.

Fixpoint str_includes (x s : string) : bool :=
  String.prefix x s ||
  match s with
  | EmptyString => false
  | String _ s' => str_includes x s'
  end.

(** What the engine says when the method [m] of the expression written
    [name] is called and is not there. *)
Definition notAFunction (name m : string) : exn :=
  TypeError (name ++ "." ++ m ++ " is not a function")%string.

(** [name.includes(x)] with [x] a string literal and [v] the value of
    [name]: [Array.prototype.includes] on an array,
    [String.prototype.includes] (substring search) on a string; any other
    receiver has no callable [includes]. *)
Definition includes (name : string) (v : jsval) (x : string) : result bool :=
  match v with
  | JArr l => Ok (existsb (is_str x) l)
  | JStr s => Ok (str_includes x s)
  | JUndefined => Throw (cannotRead "undefined" "includes")
  | JNull => Throw (cannotRead "null" "includes")
  | _ => Throw (notAFunction name "includes")
  end.

(** The callback loop of [Array.prototype.some]: stops at the first element
    for which the callback answers true, and at the first one where it
    throws. *)
Fixpoint some_loop (f : jsval -> result bool) (l : list jsval) : result bool :=
  match l with
  | [] => Ok false
  | x :: l' =>
      b <-? f x ;;
      if b then Ok true else some_loop f l'
  end.

(** [name.some(f)] with [v] the value of [name]: only arrays have the
    method. *)
Definition some (name : string) (v : jsval) (f : jsval -> result bool)
  : result bool :=
  match v with
  | JArr l => some_loop f l
  | JUndefined => Throw (cannotRead "undefined" "some")
  | JNull => Throw (cannotRead "null" "some")
  | _ => Throw (notAFunction name "some")
  end.

End JS.
Import JS.

(** ** PermissionResolver: [canRunCollMod] *)

Definition adminRoles : list string :=
  ["dbAdmin"; "dbOwner"; "root"; "atlasAdmin"; "dbAdminAnyDatabase"].

(** [(priv) => { const actions = priv.actions || [];
      return actions.includes("collMod") || actions.includes("anyAction"); }] *)
Definition grantsCollMod (priv : jsval) : result bool :=
  a <-? get priv "actions" ;;
  let actions := js_or a (JArr []) in
  b <-? includes "actions" actions "collMod" ;;
  if b then Ok true else includes "actions" actions "anyAction".

(** [(role) => [...].includes(role.role)] *)
Definition isAdminRole (role : jsval) : result bool :=
  r <-? get role "role" ;;
  Ok (existsb (fun n => is_str n r) adminRoles).

Definition canRunCollMod (userData : jsval) : result bool :=
  if negb (truthy userData) then Ok false else
  ip <-? get userData "inheritedPrivileges" ;;
  c1 <-? (if isArray ip
          then some "userData.inheritedPrivileges" ip grantsCollMod
          else Ok false) ;;
  if c1 then Ok true else
  p <-? get userData "privileges" ;;
  c2 <-? (if isArray p
          then some "userData.privileges" p grantsCollMod
          else Ok false) ;;
  if c2 then Ok true else
  r <-? get userData "roles" ;;
  hasAdminRole <-? some "roles" (js_or r (JArr [])) isAdminRole ;;
  if hasAdminRole then Ok true else
  ir <-? get userData "inheritedRoles" ;;
  hasInheritedAdmin <-?
    some "inheritedRoles" (js_or ir (JArr [])) isAdminRole ;;
  if hasInheritedAdmin then Ok true else
  Ok false.

(** *** Typed profiles

    The shape [usersInfo] documents for a user: privilege entries carry a
    resource and a list of action names, role entries a role name and a
    database. *)

Record Privilege : Type := mkPrivilege {
  resource : jsval;
  actions : list string
}.

Record RoleRef : Type := mkRoleRef {
  role : string;
  roleDb : string
}.

Record PrincipalProfile : Type := mkProfile {
  user : string;
  userDb : string;
  privileges : list Privilege;
  inheritedPrivileges : list Privilege;
  roles : list RoleRef;
  inheritedRoles : list RoleRef
}.

Definition encPrivilege (p : Privilege) : jsval :=
  JObj [("resource", resource p); ("actions", JArr (map JStr (actions p)))].

Definition encRole (r : RoleRef) : jsval :=
  JObj [("role", JStr (role r)); ("db", JStr (roleDb r))].

Definition encProfile (p : PrincipalProfile) : jsval :=
  JObj [("user", JStr (user p));
        ("db", JStr (userDb p));
        ("roles", JArr (map encRole (roles p)));
        ("inheritedRoles", JArr (map encRole (inheritedRoles p)));
        ("privileges", JArr (map encPrivilege (privileges p)));
        ("inheritedPrivileges", JArr (map encPrivilege (inheritedPrivileges p)))].

(** The four conditions of the resolver on a typed profile. *)
Definition grants (p : Privilege) : bool :=
  existsb (fun a => a =? "collMod")%string (actions p) ||
  existsb (fun a => a =? "anyAction")%string (actions p).

Definition isAdmin (r : RoleRef) : bool :=
  existsb (fun n => role r =? n)%string adminRoles.

(** The same conditions as propositions. *)
Definition grantsP (e : Privilege) : Prop :=
  In "collMod" (actions e) \/ In "anyAction" (actions e).

Definition adminP (r : RoleRef) : Prop := In (role r) adminRoles.

(** *** Loosely shaped profile documents

    What the check tolerates: a privilege list that is not an array is
    skipped, a missing role list and a missing action list count as empty. *)

Definition privEntries (v : jsval) : list jsval :=
  match v with JArr l => l | _ => [] end.

Definition listOrEmpty (v : jsval) : list jsval :=
  match js_or v (JArr []) with JArr l => l | _ => [] end.

Definition nullish (v : jsval) : bool :=
  match v with JUndefined | JNull => true | _ => false end.

(** An object-like entry: reading a property of it does not throw. *)
Definition readable (v : jsval) : bool := negb (nullish v).

Definition fieldOf (v : jsval) (k : string) : jsval :=
  match v with JObj fs => assoc k fs | _ => JUndefined end.

(** A privilege entry whose [actions] is absent (falsy) or an array. *)
Definition loosePrivilege (e : jsval) : bool :=
  readable e &&
  (negb (truthy (fieldOf e "actions")) || isArray (fieldOf e "actions")).

(** A privilege field: anything that is not an array, or an array of loose
    privilege entries. *)
Definition loosePrivileges (v : jsval) : bool :=
  forallb loosePrivilege (privEntries v).

(** A role field: absent (falsy), or an array of readable entries. *)
Definition looseRoles (v : jsval) : bool :=
  (negb (truthy v) || isArray v) && forallb readable (listOrEmpty v).

Definition looseProfile (u : jsval) : bool :=
  truthy u &&
  loosePrivileges (fieldOf u "inheritedPrivileges") &&
  loosePrivileges (fieldOf u "privileges") &&
  looseRoles (fieldOf u "roles") &&
  looseRoles (fieldOf u "inheritedRoles").

Definition entryGrants (e : jsval) : bool :=
  let l := listOrEmpty (fieldOf e "actions") in
  existsb (is_str "collMod") l || existsb (is_str "anyAction") l.

Definition entryIsAdmin (e : jsval) : bool :=
  existsb (fun n => is_str n (fieldOf e "role")) adminRoles.

(** ** The manager, its collaborators and the effect monad *)

Definition Transform : Type := jsval -> result jsval.

Inductive Client : Type := MongoClient (uri : string).
Inductive Db : Type := DbOf (c : Client).

(** The fields the constructor declares. *)
Record Manager : Type := mkManager {
  client : option Client;
  db : option Db;
  collections : list string;
  auditCollection : string;
  transform : option Transform
}.

(** [constructor()] *)
Definition newManager : Manager :=
  {| client := None; db := None; collections := [];
     auditCollection := "audit_logs"; transform := None |}.

Record AuditRecord : Type := mkAuditRecord {
  collection : string;
  documentId : jsval;
  operation : jsval;
  timestamp : Z;
  before : jsval;
  after : jsval
}.

Inductive command : Type :=
| ConnectionStatus
| UsersInfo (user userDb : jsval)
| CollMod (collectionName : string).

Inductive logline : Type :=
| Initialized (colls : list string)
| ConnectedUser (userInfo : jsval)
| NoAuthenticatedUser
| UserNotFound (user userDb : jsval)
| Enabling (collectionName : string)
| Enabled (collectionName : string)
| CouldNotEnable (collectionName : string) (msg : string)
| Started.

(** What the manager does to the outside, in the order it does it.  A
    command is recorded when it is issued, whatever its outcome; an insert is
    recorded as [EInsert] when the write went through and as [EInsertFailed]
    when it was rejected. *)
Inductive event : Type :=
| EConnect (uri : string)
| ECommand (c : command)
| ELog (l : logline)
| EWarn (l : logline)
| EWatch (collName : string)
| ETransform (arg : jsval)
| EInsert (dest : string) (r : AuditRecord)
| EInsertFailed (dest : string) (r : AuditRecord)
| ENotify (observer : nat) (r : AuditRecord).

(** The driver and the clock.  Each answer may depend on everything that
    happened before.  [drv_elapsed] is the time that has passed, in
    milliseconds, when the clock is read. *)
Record Driver : Type := mkDriver {
  drv_construct : string -> result unit;
  drv_connect : list event -> string -> result unit;
  drv_command : list event -> command -> result jsval;
  drv_insertOne : list event -> string -> AuditRecord -> result unit;
  drv_elapsed : list event -> N
}.

(** The process: the manager's fields, the listeners registered on it for
    the [audit] event, the change streams that carry its handler (one entry
    per [watch], named by the collection the handler closed over), the last
    clock reading and the history. *)
Record State : Type := mkState {
  mgr : Manager;
  observers : list nat;
  streams : list string;
  now : Z;
  trace : list event
}.

Definition initState (t0 : Z) : State :=
  {| mgr := newManager; observers := []; streams := []; now := t0; trace := [] |}.

Definition M (A : Type) : Type := State -> result A * State.

Definition ret {A} (a : A) : M A := fun s => (Ok a, s).

Definition throw {A} (e : exn) : M A := fun s => (Throw e, s).

Definition bind {A B} (m : M A) (k : A -> M B) : M B :=
  fun s =>
    match m s with
    | (Ok a, s') => k a s'
    | (Throw e, s') => (Throw e, s')
    end.

Notation "x <- m ;; k" := (bind m (fun x => k))
  (at level 61, m at next level, right associativity).
Notation "m ;;; k" := (bind m (fun _ => k))
  (at level 61, right associativity).

Definition liftR {A} (r : result A) : M A := fun s => (r, s).

(** [try { body } catch (err) { handler }] *)
Definition tryCatch {A} (body : M A) (handler : exn -> M A) : M A :=
  fun s =>
    match body s with
    | (Ok a, s') => (Ok a, s')
    | (Throw e, s') => handler e s'
    end.

(** [for (const x of l) { await f(x) }] *)
Fixpoint forOf {A} (l : list A) (f : A -> M unit) : M unit :=
  match l with
  | [] => ret tt
  | x :: l' => f x ;;; forOf l' f
  end.

Definition setMgr (f : Manager -> Manager) : M unit :=
  fun s => (Ok tt, {| mgr := f (mgr s); observers := observers s;
                      streams := streams s; now := now s; trace := trace s |}).

Definition record (e : event) (s : State) : State :=
  {| mgr := mgr s; observers := observers s; streams := streams s;
     now := now s; trace := trace s ++ [e] |}.

Definition emitEvent (e : event) : M unit := fun s => (Ok tt, record e s).

Definition log (l : logline) : M unit := emitEvent (ELog l).
Definition warn (l : logline) : M unit := emitEvent (EWarn l).

Definition getMgr : M Manager := fun s => (Ok (mgr s), s).

(** [this.db.<method>]: a TypeError while [this.db] is still [null]. *)
Definition thisDb : M Db :=
  fun s =>
    match db (mgr s) with
    | Some d => (Ok d, s)
    | None => (Throw (TypeError "Cannot read properties of null"), s)
    end.

(** ** The class methods *)

Record Options : Type := mkOptions {
  uri : option string;
  opt_collections : option (list string);
  opt_auditCollection : option string;
  opt_transform : option Transform
}.

(** [!uri] *)
Definition uriMissing (o : Options) : bool :=
  match uri o with
  | None => true
  | Some u => (u =? "")%string
  end.

(** [!collections || collections.length === 0] *)
Definition collectionsMissing (o : Options) : bool :=
  match opt_collections o with
  | None | Some [] => true
  | Some (_ :: _) => false
  end.

Section Methods.

Variable drv : Driver.

(** [await this.db.command(c)], also through [this.db.admin()]. *)
Definition dbCommand (c : command) : M jsval :=
  _ <- thisDb ;;
  fun s => (drv_command drv (trace s) c, record (ECommand c) s).

(** [await this.client.connect()] *)
Definition connect (u : string) : M unit :=
  fun s => (drv_connect drv (trace s) u, record (EConnect u) s).

(** [await this.db.collection(dest).insertOne(doc)] *)
Definition insertOne (dest : string) (doc : AuditRecord) : M unit :=
  _ <- thisDb ;;
  fun s =>
    match drv_insertOne drv (trace s) dest doc with
    | Ok _ => (Ok tt, record (EInsert dest doc) s)
    | Throw e => (Throw e, record (EInsertFailed dest doc) s)
    end.

(** [new Date()]: the clock has moved on by [drv_elapsed] since it was last
    looked at. *)
Definition newDate : M Z :=
  fun s =>
    let t := now s + Z.of_N (drv_elapsed drv (trace s)) in
    (Ok t, {| mgr := mgr s; observers := observers s; streams := streams s;
              now := t; trace := trace s |}).

(** [this.emit("audit", doc)]: every registered listener, in registration
    order, gets the record. *)
Definition emit (doc : AuditRecord) : M unit :=
  fun s =>
    (Ok tt, {| mgr := mgr s; observers := observers s; streams := streams s;
               now := now s;
               trace := trace s ++ map (fun o => ENotify o doc) (observers s) |}).

(** [coll.watch([], {...})] followed by [changeStream.on("change", ...)] *)
Definition watch (collName : string) : M unit :=
  fun s =>
    (Ok tt, {| mgr := mgr s; observers := observers s;
               streams := streams s ++ [collName];
               now := now s; trace := trace s ++ [EWatch collName] |}).

(** [x && this.transform ? this.transform(x) : x] *)
Definition applyTransform (x : jsval) : M jsval :=
  fun s =>
    if truthy x then
      match transform (mgr s) with
      | Some f => (f x, record (ETransform x) s)
      | None => (Ok x, s)
      end
    else (Ok x, s).

Definition createAuditDoc (change : jsval) (collectionName : string)
  : M AuditRecord :=
  operationType <- liftR (get change "operationType") ;;
  fullDocument <- liftR (get change "fullDocument") ;;
  fullDocumentBeforeChange <- liftR (get change "fullDocumentBeforeChange") ;;
  documentKey <- liftR (get change "documentKey") ;;
  let before := js_or fullDocumentBeforeChange JNull in
  let after := js_or fullDocument JNull in
  transformedBefore <- applyTransform before ;;
  transformedAfter <- applyTransform after ;;
  id <- liftR (get documentKey "_id") ;;
  t <- newDate ;;
  ret {| collection := collectionName;
         documentId := id;
         operation := operationType;
         timestamp := t;
         before := transformedBefore;
         after := transformedAfter |}.

(** The listener that [start] puts on a change stream. *)
Definition onChange (collName : string) (change : jsval) : M unit :=
  auditDoc <- createAuditDoc change collName ;;
  m <- getMgr ;;
  insertOne (auditCollection m) auditDoc ;;;
  emit auditDoc.

Definition ensurePreImageEnabled (collectionName : string) : M unit :=
  connectionInfo <- dbCommand ConnectionStatus ;;
  authInfo <- liftR (get connectionInfo "authInfo") ;;
  authenticatedUsers <- liftR (get authInfo "authenticatedUsers") ;;
  userInfo <- liftR (get0 authenticatedUsers) ;;
  log (ConnectedUser userInfo) ;;;
  if negb (truthy userInfo) then warn NoAuthenticatedUser
  else
    user <- liftR (get userInfo "user") ;;
    userDb <- liftR (get userInfo "db") ;;
    userDoc <- dbCommand (UsersInfo user userDb) ;;
    users <- liftR (get userDoc "users") ;;
    userData <- liftR (get0 users) ;;
    if negb (truthy userData) then warn (UserNotFound user userDb)
    else
      _ <- liftR (canRunCollMod userData) ;;
      tryCatch
        (log (Enabling collectionName) ;;;
         _ <- dbCommand (CollMod collectionName) ;;
         log (Enabled collectionName))
        (fun err => warn (CouldNotEnable collectionName (message err))).

Definition initialize (options : Options) : M unit :=
  if uriMissing options then throw (Error "Mongo URI is required")
  else if collectionsMissing options
  then throw (Error "Collections to audit are required")
  else
    let u := match uri options with Some u => u | None => "" end in
    let colls := match opt_collections options with Some l => l | None => [] end in
    liftR (drv_construct drv u) ;;;
    setMgr (fun m => {| client := Some (MongoClient u); db := db m;
                        collections := collections m;
                        auditCollection := auditCollection m;
                        transform := transform m |}) ;;;
    connect u ;;;
    setMgr (fun m => {| client := client m; db := Some (DbOf (MongoClient u));
                        collections := collections m;
                        auditCollection := auditCollection m;
                        transform := transform m |}) ;;;
    setMgr (fun m => {| client := client m; db := db m;
                        collections := colls;
                        auditCollection := auditCollection m;
                        transform := transform m |}) ;;;
    (match opt_auditCollection options with
     | Some a =>
         if (a =? "")%string then ret tt
         else setMgr (fun m => {| client := client m; db := db m;
                                  collections := collections m;
                                  auditCollection := a;
                                  transform := transform m |})
     | None => ret tt
     end) ;;;
    (match opt_transform options with
     | Some f =>
         setMgr (fun m => {| client := client m; db := db m;
                             collections := collections m;
                             auditCollection := auditCollection m;
                             transform := Some f |})
     | None => ret tt
     end) ;;;
    log (Initialized colls) ;;;
    forOf colls ensurePreImageEnabled.

Definition start : M unit :=
  m <- getMgr ;;
  match db m with
  | None => throw (Error "Call initialize() first")
  | Some _ =>
      forOf (collections m) watch ;;;
      log Started
  end.

(** ** The feed

    A change stream calls its listener once per notification and does
    nothing with the promise the async listener returns.  The listener has no
    handler of its own and no code of the class looks at that promise, so
    when the listener rejects the rejection is handled by nobody, and the
    host treats a rejection that nobody handles as an uncaught error: the
    process ends, and with it every feed.  A delivery therefore ends at the
    first listener that rejects, and a run of notifications ends at the first
    delivery in which one does.  Listeners are run here one after the other,
    each to its end, in the order in which their streams were opened. *)

Fixpoint runHandlers (hs : list string) (change : jsval) (s : State)
  : result unit * State :=
  match hs with
  | [] => (Ok tt, s)
  | collName :: hs' =>
      match onChange collName change s with
      | (Ok _, s') => runHandlers hs' change s'
      | (Throw e, s') => (Throw e, s')
      end
  end.

(** One notification on the feed of [coll]: every stream opened on that
    collection hands it to its listener; [Throw] when a listener rejected
    and the process has ended. *)
Definition deliverAll (coll : string) (change : jsval) (s : State)
  : result unit * State :=
  runHandlers (filter (String.eqb coll) (streams s)) change s.

Definition deliver (coll : string) (change : jsval) (s : State) : State :=
  snd (deliverAll coll change s).

(** A run of notifications, each tagged with the collection it belongs to;
    what follows a rejected listener is never handled. *)
Fixpoint dispatchAll (evs : list (string * jsval)) (s : State)
  : result unit * State :=
  match evs with
  | [] => (Ok tt, s)
  | (coll, change) :: evs' =>
      match deliverAll coll change s with
      | (Ok _, s') => dispatchAll evs' s'
      | (Throw e, s') => (Throw e, s')
      end
  end.

Definition dispatch (evs : list (string * jsval)) (s : State) : State :=
  snd (dispatchAll evs s).

End Methods.

(** [manager.on("audit", listener)] *)
Definition onAudit (o : nat) (s : State) : State :=
  {| mgr := mgr s; observers := observers s ++ [o]; streams := streams s;
     now := now s; trace := trace s |}.

(** ** Normalized change events *)

(** A before- or after-image as the feed reports it: left out, an explicit
    [null], or a document. *)
Inductive image : Type :=
| Absent
| Null
| Doc (fields : list (string * jsval)).

Record ChangeEvent : Type := mkChangeEvent {
  operationType : string;
  documentKey : jsval;
  fullDocumentBeforeChange : image;
  fullDocument : image
}.

Definition encImage (i : image) : jsval :=
  match i with
  | Absent => JUndefined
  | Null => JNull
  | Doc fs => JObj fs
  end.

(** The notification object the change stream hands to its listener;
    [documentKey] is [{_id: X}]. *)
Definition encChange (e : ChangeEvent) : jsval :=
  JObj [("operationType", JStr (operationType e));
        ("documentKey", JObj [("_id", documentKey e)]);
        ("fullDocumentBeforeChange", encImage (fullDocumentBeforeChange e));
        ("fullDocument", encImage (fullDocument e))].

(** What an audit record shows for an image when no transform is set. *)
Definition recorded (i : image) : jsval :=
  match i with
  | Doc fs => JObj fs
  | Absent | Null => JNull
  end.

(** What it shows under a transform [f], and the calls of [f] this takes. *)
Definition transformed (f : Transform) (i : image) : result jsval :=
  match i with
  | Doc fs => f (JObj fs)
  | Absent | Null => Ok JNull
  end.

Definition transformCalls (i : image) : list event :=
  match i with
  | Doc fs => [ETransform (JObj fs)]
  | Absent | Null => []
  end.

(** The transform [f] raises [err] while the record for [e] is built: on the
    before-image, or on the after-image once the before-image went through. *)
Definition raisesOn (f : Transform) (e : ChangeEvent) (err : exn) : Prop :=
  transformed f (fullDocumentBeforeChange e) = Throw err \/
  (exists tb, transformed f (fullDocumentBeforeChange e) = Ok tb /\
              transformed f (fullDocument e) = Throw err).

(** ** Relations between the state before and after an operation *)

(** [m] relates every state it is run in to the state it leaves. *)
Definition steps (R : State -> State -> Prop) {A} (m : M A) : Prop :=
  forall s, R s (snd (m s)).

(** The configuration fields are untouched. *)
Definition sameConfig (s s' : State) : Prop := mgr s' = mgr s.

(** The subscriptions and the registered observers are untouched. *)
Definition sameFeeds (s s' : State) : Prop :=
  streams s' = streams s /\ observers s' = observers s.

Definition isNotify (e : event) : bool :=
  match e with ENotify _ _ => true | _ => false end.

Definition isTransformCall (e : event) : bool :=
  match e with ETransform _ => true | _ => false end.

(** The history only grows, by events accepted by [ok]. *)
Definition extends (ok : event -> bool) (s s' : State) : Prop :=
  exists d, trace s' = trace s ++ d /\ forallb ok d = true.

(** Anything but a notification of an observer. *)
Definition quiet (e : event) : bool := negb (isNotify e).

(** How many times observer [o] is notified in a stretch of history. *)
Definition deliveriesTo (o : nat) (d : list event) : nat :=
  List.length
    (filter (fun e => match e with
                      | ENotify o' _ => Nat.eqb o' o
                      | _ => false
                      end) d).

(** How many times [o] is registered. *)
Definition registrations (o : nat) (obs : list nat) : nat :=
  List.length (filter (fun o' => Nat.eqb o' o) obs).

(** The state a failed build leaves: only the history has grown, by calls
    of the transform. *)
Definition onlyCalls (s s' : State) : Prop :=
  mgr s' = mgr s /\ streams s' = streams s /\ observers s' = observers s /\
  now s' = now s /\ extends isTransformCall s s'.

(** Every notification in a history comes after the commit of the record it
    carries. *)
Definition committedFirst (tr : list event) : Prop :=
  forall pre o r post,
    tr = pre ++ ENotify o r :: post ->
    exists dest, In (EInsert dest r) pre.

(** ** What callers and the database do to a manager *)

Inductive action : Type :=
| Initialize (options : Options)
| Start
| Provision (collectionName : string)
| OnAudit (observer : nat)
| Notification (coll : string) (change : jsval).

Definition perform (drv : Driver) (a : action) (s : State) : State :=
  match a with
  | Initialize o => snd (initialize drv o s)
  | Start => snd (start s)
  | Provision c => snd (ensurePreImageEnabled drv c s)
  | OnAudit o => onAudit o s
  | Notification coll change => deliver drv coll change s
  end.

(** A life of the process: the actions are performed in order, up to the
    first notification that a listener rejects.  A method that rejects hands
    its rejection to its caller and the process goes on. *)
Fixpoint run (drv : Driver) (acts : list action) (s : State) : State :=
  match acts with
  | [] => s
  | Notification coll change :: acts' =>
      match deliverAll drv coll change s with
      | (Ok _, s') => run drv acts' s'
      | (Throw _, s') => s'
      end
  | a :: acts' => run drv acts' (perform drv a s)
  end.

(** ** Well-behaved status commands *)

(** A [connectionStatus] reply from which [authInfo.authenticatedUsers[0]]
    can be read. *)
Definition repliesPrincipal (r : result jsval) : Prop :=
  exists reply authInfo users userInfo,
    r = Ok reply /\
    get reply "authInfo" = Ok authInfo /\
    get authInfo "authenticatedUsers" = Ok users /\
    get0 users = Ok userInfo.

(** A [usersInfo] reply from which [users[0]] can be read, and is either
    missing or a loosely shaped profile. *)
Definition repliesUserData (r : result jsval) : Prop :=
  exists reply users userData,
    r = Ok reply /\
    get reply "users" = Ok users /\
    get0 users = Ok userData /\
    (truthy userData = false \/ looseProfile userData = true).

Definition statusCommandsAnswer (drv : Driver) : Prop :=
  (forall h, repliesPrincipal (drv_command drv h ConnectionStatus)) /\
  (forall h u d, repliesUserData (drv_command drv h (UsersInfo u d))).

(** The client can be built and connects. *)
Definition connects (drv : Driver) (o : Options) : Prop :=
  forall u, uri o = Some u ->
    drv_construct drv u = Ok tt /\ forall h, drv_connect drv h u = Ok tt.

(** The manager's fields once [initialize] has connected with options whose
    uri is [u] and whose collection list is [colls]. *)
Definition configure (o : Options) (u : string) (colls : list string)
           (m : Manager) : Manager :=
  {| client := Some (MongoClient u);
     db := Some (DbOf (MongoClient u));
     collections := colls;
     auditCollection :=
       match opt_auditCollection o with
       | Some a => if (a =? "")%string then auditCollection m else a
       | None => auditCollection m
       end;
     transform :=
       match opt_transform o with
       | Some f => Some f
       | None => transform m
       end |}.

(** The state in which [initialize] enters its provisioning loop. *)
Definition connected (o : Options) (u : string) (colls : list string)
           (s : State) : State :=
  {| mgr := configure o u colls (mgr s);
     observers := observers s;
     streams := streams s;
     now := now s;
     trace := trace s ++ [EConnect u; ELog (Initialized colls)] |}.

(** ** Reading the history *)

Definition countEvents (p : event -> bool) (d : list event) : nat :=
  List.length (filter p d).

Definition isConnectionStatus (e : event) : bool :=
  match e with ECommand ConnectionStatus => true | _ => false end.

Definition isUsersInfo (e : event) : bool :=
  match e with ECommand (UsersInfo _ _) => true | _ => false end.

Definition isCollMod (e : event) : bool :=
  match e with ECommand (CollMod _) => true | _ => false end.

Definition isInsert (e : event) : bool :=
  match e with EInsert _ _ => true | _ => false end.

(** What provisioning collection [c] may leave in the history: the two
    status commands, [collMod] on [c] itself, and log lines. *)
Definition provisionEvent (c : string) (e : event) : bool :=
  match e with
  | ECommand ConnectionStatus | ECommand (UsersInfo _ _) => true
  | ECommand (CollMod c') => (c' =? c)%string
  | ELog _ | EWarn _ => true
  | _ => false
  end.

(** [connectionInfo.authInfo.authenticatedUsers[0]] *)
Definition principalOf (connectionInfo : jsval) : result jsval :=
  authInfo <-? get connectionInfo "authInfo" ;;
  authenticatedUsers <-? get authInfo "authenticatedUsers" ;;
  get0 authenticatedUsers.

(** [userDoc.users[0]] *)
Definition userDataOf (userDoc : jsval) : result jsval :=
  users <-? get userDoc "users" ;;
  get0 users.

(** Everything but the clock and the history is as before. *)
Definition sameManager (s s' : State) : Prop :=
  mgr s' = mgr s /\ streams s' = streams s /\ observers s' = observers s.

(** The clock reading has not changed. *)
Definition sameClock (s s' : State) : Prop := now s' = now s.

(** Two profiles that agree on the action names of their privileges and on
    the names of their roles, whatever the resources and databases. *)
Definition sameNames (p p' : PrincipalProfile) : Prop :=
  map actions (inheritedPrivileges p) = map actions (inheritedPrivileges p') /\
  map actions (privileges p) = map actions (privileges p') /\
  map role (roles p) = map role (roles p') /\
  map role (inheritedRoles p) = map role (inheritedRoles p').

(** Every entry of [p] is an entry of [p']. *)
Definition included (p p' : PrincipalProfile) : Prop :=
  incl (inheritedPrivileges p) (inheritedPrivileges p') /\
  incl (privileges p) (privileges p') /\
  incl (roles p) (roles p') /\
  incl (inheritedRoles p) (inheritedRoles p').

(** The two checks as functions of the names alone. *)
Definition grantsNames (acts : list string) : bool :=
  existsb (fun a => a =? "collMod")%string acts ||
  existsb (fun a => a =? "anyAction")%string acts.

Definition adminName (r : string) : bool :=
  existsb (fun n => r =? n)%string adminRoles.

(** The straight-line form of a provisioning attempt on a connected manager:
    the replies it reads, in the order it reads them, and the state each
    outcome leaves. *)
Definition provisionRun (drv : Driver) (c : string) (s : State)
  : result unit * State :=
  let s1 := record (ECommand ConnectionStatus) s in
  match rbind (drv_command drv (trace s) ConnectionStatus) principalOf with
  | Throw e => (Throw e, s1)
  | Ok userInfo =>
      let s2 := record (ELog (ConnectedUser userInfo)) s1 in
      if truthy userInfo then
        let u := fieldOf userInfo "user" in
        let d := fieldOf userInfo "db" in
        let s3 := record (ECommand (UsersInfo u d)) s2 in
        match rbind (drv_command drv (trace s2) (UsersInfo u d)) userDataOf with
        | Throw e => (Throw e, s3)
        | Ok userData =>
            if truthy userData then
              match canRunCollMod userData with
              | Throw e => (Throw e, s3)
              | Ok _ =>
                  let s4 := record (ELog (Enabling c)) s3 in
                  let s5 := record (ECommand (CollMod c)) s4 in
                  match drv_command drv (trace s4) (CollMod c) with
                  | Ok _ => (Ok tt, record (ELog (Enabled c)) s5)
                  | Throw e =>
                      (Ok tt, record (EWarn (CouldNotEnable c (message e))) s5)
                  end
              end
            else (Ok tt, record (EWarn (UserNotFound u d)) s3)
        end
      else (Ok tt, record (EWarn NoAuthenticatedUser) s2)
  end.

(** An event that is neither a commit nor a notification. *)
Definition silent (e : event) : bool := negb (isInsert e) && negb (isNotify e).

(** An event that is not the insert of a record of another collection. *)
Definition recordsOf (coll : string) (e : event) : bool :=
  match e with
  | EInsert _ r => (collection r =? coll)%string
  | _ => true
  end.

(** ** Sample data *)

Module Sample.

(** A principal with no privilege on [collMod] and no administrative role. *)
Definition reader : PrincipalProfile :=
  {| user := "auditor"; userDb := "admin";
     privileges := [];
     inheritedPrivileges :=
       [ {| resource := JObj [("db", JStr "shop"); ("collection", JStr "")];
            actions := ["find"; "changeStream"] |} ];
     roles := [ {| role := "read"; roleDb := "shop" |} ];
     inheritedRoles := [ {| role := "read"; roleDb := "shop" |} ] |}.

(** A principal that owns the database. *)
Definition owner : PrincipalProfile :=
  {| user := "ops"; userDb := "admin";
     privileges := [];
     inheritedPrivileges := [];
     roles := [ {| role := "dbOwner"; roleDb := "shop" |} ];
     inheritedRoles := [] |}.

(** A profile document with holes: no privilege arrays, no [roles], one
    inherited role. *)
Definition sparse : jsval :=
  JObj [("user", JStr "ops");
        ("inheritedPrivileges", JNull);
        ("privileges", JObj [("0", JStr "collMod")]);
        ("inheritedRoles", JArr [JObj [("role", JStr "root")]])].

(** The replies of a server on which [reader] is logged in. *)
Definition statusReply : jsval :=
  JObj [("authInfo",
         JObj [("authenticatedUsers",
                JArr [JObj [("user", JStr "auditor"); ("db", JStr "admin")]]);
               ("authenticatedUserRoles",
                JArr [JObj [("role", JStr "read"); ("db", JStr "shop")]])]);
        ("ok", JNum 1)].

Definition usersReply (p : PrincipalProfile) : jsval :=
  JObj [("users", JArr [encProfile p]); ("ok", JNum 1)].

(** A server that answers the status commands for principal [p], accepts
    every write, refuses [collMod] unless [mayCollMod], and on which two
    milliseconds pass between two looks at the clock. *)
Definition server (p : PrincipalProfile) (mayCollMod : bool) : Driver :=
  {| drv_construct := fun _ => Ok tt;
     drv_connect := fun _ _ => Ok tt;
     drv_command := fun _ c =>
       match c with
       | ConnectionStatus => Ok statusReply
       | UsersInfo _ _ => Ok (usersReply p)
       | CollMod _ =>
           if mayCollMod then Ok (JObj [("ok", JNum 1)])
           else Throw (DriverError "not authorized to execute command collMod")
       end;
     drv_insertOne := fun _ _ _ => Ok tt;
     drv_elapsed := fun _ => 2%N |}.

(** The same server with the user registry out of reach. *)
Definition registryDown : Driver :=
  {| drv_construct := fun _ => Ok tt;
     drv_connect := fun _ _ => Ok tt;
     drv_command := fun _ c =>
       match c with
       | ConnectionStatus => Ok statusReply
       | UsersInfo _ _ => Throw (DriverError "connection closed")
       | CollMod _ => Ok (JObj [("ok", JNum 1)])
       end;
     drv_insertOne := fun _ _ _ => Ok tt;
     drv_elapsed := fun _ => 2%N |}.

(** A server that cannot be reached. *)
Definition unreachable : Driver :=
  {| drv_construct := fun _ => Ok tt;
     drv_connect := fun _ _ => Throw (DriverError "connect ECONNREFUSED");
     drv_command := fun _ _ => Throw (DriverError "not connected");
     drv_insertOne := fun _ _ _ => Throw (DriverError "not connected");
     drv_elapsed := fun _ => 2%N |}.

Definition redact : Transform :=
  fun _ => Ok (JObj [("redacted", JBool true)]).

(** A transform that chokes on documents without a [status] field. *)
Definition strict : Transform :=
  fun d =>
    match d with
    | JObj fs =>
        if truthy (assoc "status" fs) then Ok d
        else Throw (UserError "status is required")
    | _ => Throw (UserError "not a document")
    end.

Definition options (t : option Transform) : Options :=
  {| uri := Some "mongodb://localhost:27017/shop";
     opt_collections := Some ["orders"];
     opt_auditCollection := None;
     opt_transform := t |}.

(** A manager after [initialize], one [on("audit", ...)] and [start]. *)
Definition running (t : option Transform) : State :=
  run (server reader false)
      [Initialize (options t); OnAudit 1%nat; Start] (initState 1000).

Definition paid : list (string * jsval) :=
  [("_id", JNum 7); ("status", JStr "paid")].

Definition insertEvent : ChangeEvent :=
  {| operationType := "insert";
     documentKey := JNum 7;
     fullDocumentBeforeChange := Absent;
     fullDocument := Doc paid |}.

Definition updateEvent : ChangeEvent :=
  {| operationType := "update";
     documentKey := JNum 7;
     fullDocumentBeforeChange := Doc [("_id", JNum 7); ("status", JStr "open")];
     fullDocument := Doc paid |}.

Definition deleteEvent : ChangeEvent :=
  {| operationType := "delete";
     documentKey := JNum 7;
     fullDocumentBeforeChange := Doc paid;
     fullDocument := Absent |}.

(** An insert of a document the [strict] transform rejects. *)
Definition draftEvent : ChangeEvent :=
  {| operationType := "insert";
     documentKey := JNum 8;
     fullDocumentBeforeChange := Absent;
     fullDocument := Doc [("_id", JNum 8)] |}.

(** A principal whose only administrative role is on another database. *)
Definition elsewhere : PrincipalProfile :=
  {| user := "hr"; userDb := "admin";
     privileges := [];
     inheritedPrivileges := [];
     roles := [ {| role := "dbAdmin"; roleDb := "payroll" |} ];
     inheritedRoles := [] |}.

(** The same role names on the audited database. *)
Definition here : PrincipalProfile :=
  {| user := "hr"; userDb := "admin";
     privileges := [];
     inheritedPrivileges := [];
     roles := [ {| role := "dbAdmin"; roleDb := "shop" |} ];
     inheritedRoles := [] |}.

(** A profile document whose privileges grant [collMod] and whose [roles]
    field is a number. *)
Definition brokenRoles : jsval :=
  JObj [("privileges", JArr [JObj [("actions", JArr [JStr "collMod"])]]);
        ("roles", JNum 5)].

(** A profile document with a [null] among its inherited privileges. *)
Definition nullEntry : jsval :=
  JObj [("inheritedPrivileges",
         JArr [JObj [("actions", JArr [JStr "find"])]; JNull;
               JObj [("actions", JArr [JStr "collMod"])]])].

(** A server that answers the status commands with the given replies and
    accepts every other request. *)
Definition serverWith (status users : jsval) : Driver :=
  {| drv_construct := fun _ => Ok tt;
     drv_connect := fun _ _ => Ok tt;
     drv_command := fun _ c =>
       match c with
       | ConnectionStatus => Ok status
       | UsersInfo _ _ => Ok users
       | CollMod _ => Ok (JObj [("ok", JNum 1)])
       end;
     drv_insertOne := fun _ _ _ => Ok tt;
     drv_elapsed := fun _ => 2%N |}.

(** The status reply of a server without access control. *)
Definition anonymousReply : jsval :=
  JObj [("authInfo",
         JObj [("authenticatedUsers", JArr []);
               ("authenticatedUserRoles", JArr [])]);
        ("ok", JNum 1)].

Definition noUsers : jsval := JObj [("users", JArr []); ("ok", JNum 1)].

(** A registry entry whose [roles] is not an array. *)
Definition oddUsers : jsval :=
  JObj [("users", JArr [JObj [("user", JStr "auditor"); ("roles", JNum 5)]]);
        ("ok", JNum 1)].

(** A connected manager that audits [orders]. *)
Definition connectedState : State :=
  connected (options None) "mongodb://localhost:27017/shop" ["orders"]
            (initState 1000).

(** A server on which every write to the audit collection fails. *)
Definition readOnly : Driver :=
  {| drv_construct := fun _ => Ok tt;
     drv_connect := fun _ _ => Ok tt;
     drv_command := fun _ _ => Ok (JObj [("ok", JNum 1)]);
     drv_insertOne := fun _ _ _ => Throw (DriverError "not primary");
     drv_elapsed := fun _ => 2%N |}.


(** Options that only change the destination. *)
Definition redirect : Options :=
  {| uri := Some "mongodb://localhost:27017/shop";
     opt_collections := Some ["orders"];
     opt_auditCollection := Some "audit_v2";
     opt_transform := None |}.

End Sample.

(** ** PermissionResolver *)

Section Resolver.

Example reader_cannot : canRunCollMod (encProfile Sample.reader) = Ok false.
Proof. reflexivity. Qed.

Example owner_can : canRunCollMod (encProfile Sample.owner) = Ok true.
Proof. reflexivity. Qed.

(** An [actions] field that is a string is searched as a string. *)
Example actions_as_string :
  canRunCollMod (JObj [("privileges",
                        JArr [JObj [("actions", JStr "collModify")]])])
  = Ok true.
Proof. reflexivity. Qed.

Lemma existsb_is_str (x : string) (l : list string) :
  existsb (is_str x) (map JStr l) = existsb (fun a => a =? x)%string l.
Proof.
  induction l as [|a l IH]; simpl; [reflexivity|].
  now rewrite IH.
Qed.

Lemma grantsCollMod_enc (p : Privilege) :
  grantsCollMod (encPrivilege p) = Ok (grants p).
Proof.
  unfold grantsCollMod, encPrivilege, grants; simpl.
  rewrite !existsb_is_str.
  now destruct (existsb _ (actions p)).
Qed.

Lemma isAdminRole_enc (r : RoleRef) :
  isAdminRole (encRole r) = Ok (isAdmin r).
Proof. reflexivity. Qed.

Lemma some_loop_map {A} (enc : A -> jsval) (f : jsval -> result bool)
      (g : A -> bool) (l : list A) :
  (forall a, f (enc a) = Ok (g a)) ->
  some_loop f (map enc l) = Ok (existsb g l).
Proof.
  intros Hf; induction l as [|a l IH]; simpl; [reflexivity|].
  rewrite Hf; simpl. now destruct (g a).
Qed.

Lemma canRunCollMod_enc (p : PrincipalProfile) :
  canRunCollMod (encProfile p) =
  Ok (existsb grants (inheritedPrivileges p) ||
      existsb grants (privileges p) ||
      existsb isAdmin (roles p) ||
      existsb isAdmin (inheritedRoles p)).
Proof.
  unfold canRunCollMod, encProfile; simpl.
  rewrite (some_loop_map encPrivilege grantsCollMod grants _ grantsCollMod_enc).
  simpl. destruct (existsb grants (inheritedPrivileges p)); [reflexivity|].
  rewrite (some_loop_map encPrivilege grantsCollMod grants _ grantsCollMod_enc).
  simpl. destruct (existsb grants (privileges p)); [reflexivity|].
  rewrite (some_loop_map encRole isAdminRole isAdmin _ isAdminRole_enc).
  simpl. destruct (existsb isAdmin (roles p)); [reflexivity|].
  rewrite (some_loop_map encRole isAdminRole isAdmin _ isAdminRole_enc).
  simpl. now destruct (existsb isAdmin (inheritedRoles p)).
Qed.

Lemma grants_spec (e : Privilege) : grants e = true <-> grantsP e.
Proof.
  unfold grants, grantsP. rewrite orb_true_iff, !existsb_exists.
  split; (intros [H|H]; [left|right]).
  - destruct H as (a & Hin & Ha). apply String.eqb_eq in Ha. now subst.
  - destruct H as (a & Hin & Ha). apply String.eqb_eq in Ha. now subst.
  - eexists; split; [exact H | apply String.eqb_refl].
  - eexists; split; [exact H | apply String.eqb_refl].
Qed.

Lemma isAdmin_spec (r : RoleRef) : isAdmin r = true <-> adminP r.
Proof.
  unfold isAdmin, adminP. rewrite existsb_exists. split.
  - intros (n & Hin & Hn). apply String.eqb_eq in Hn. now rewrite Hn.
  - intros H. exists (role r). split; [exact H | apply String.eqb_refl].
Qed.

Lemma existsb_Exists {A} (f : A -> bool) (P : A -> Prop) (l : list A) :
  (forall a, f a = true <-> P a) ->
  existsb f l = true <-> exists a, In a l /\ P a.
Proof.
  intros Hf. rewrite existsb_exists.
  split; intros (a & Hin & Ha); exists a; split; auto; now apply Hf.
Qed.

(** C1.  [canRunCollMod] answers false for an absent profile, and for every
    profile it answers with a boolean that is true exactly when an inherited
    privilege or an explicit privilege lists [collMod] or [anyAction], or an
    explicit role or an inherited role is in the administrative allow-list;
    the answer is the left-to-right disjunction of the four checks in that
    order. *)
Theorem canRunCollMod_permission_ordering (p : PrincipalProfile) :
  canRunCollMod JUndefined = Ok false /\
  canRunCollMod JNull = Ok false /\
  canRunCollMod (encProfile p) =
    Ok (if existsb grants (inheritedPrivileges p) then true
        else if existsb grants (privileges p) then true
        else if existsb isAdmin (roles p) then true
        else existsb isAdmin (inheritedRoles p)) /\
  (canRunCollMod (encProfile p) = Ok true <->
     (exists e, In e (inheritedPrivileges p) /\ grantsP e) \/
     (exists e, In e (privileges p) /\ grantsP e) \/
     (exists r, In r (roles p) /\ adminP r) \/
     (exists r, In r (inheritedRoles p) /\ adminP r)) /\
  (canRunCollMod (encProfile p) = Ok true \/
   canRunCollMod (encProfile p) = Ok false).
Proof.
  repeat split; try reflexivity.
  - rewrite canRunCollMod_enc.
    destruct (existsb grants (inheritedPrivileges p)),
             (existsb grants (privileges p)),
             (existsb isAdmin (roles p)); reflexivity.
  - rewrite canRunCollMod_enc. intros H. injection H as H.
    rewrite !orb_true_iff in H.
    rewrite <- !(existsb_Exists _ _ _ grants_spec).
    rewrite <- !(existsb_Exists _ _ _ isAdmin_spec). tauto.
  - rewrite canRunCollMod_enc. intros H. f_equal.
    rewrite <- !(existsb_Exists _ _ _ grants_spec) in H.
    rewrite <- !(existsb_Exists _ _ _ isAdmin_spec) in H.
    rewrite !orb_true_iff. tauto.
  - rewrite canRunCollMod_enc.
    destruct (_ || _); [now left | now right].
Qed.

Lemma get_readable (v : jsval) (k : string) :
  nullish v = false -> get v k = Ok (fieldOf v k).
Proof. now destruct v. Qed.

Lemma truthy_readable (v : jsval) : truthy v = true -> nullish v = false.
Proof. now destruct v. Qed.

Lemma grantsCollMod_loose (e : jsval) :
  loosePrivilege e = true -> grantsCollMod e = Ok (entryGrants e).
Proof.
  unfold loosePrivilege, readable, grantsCollMod, entryGrants, listOrEmpty.
  rewrite andb_true_iff, orb_true_iff.
  intros [Hr Ha]. apply negb_true_iff in Hr. rewrite (get_readable e _ Hr).
  unfold rbind, js_or. destruct Ha as [Ha|Ha].
  - apply negb_true_iff in Ha. rewrite Ha. reflexivity.
  - destruct (fieldOf e "actions"); try discriminate; simpl.
    now destruct (existsb (is_str "collMod") elems).
Qed.

Lemma isAdminRole_readable (e : jsval) :
  readable e = true -> isAdminRole e = Ok (entryIsAdmin e).
Proof.
  unfold readable, isAdminRole, entryIsAdmin. rewrite negb_true_iff.
  intros Hr. now rewrite (get_readable e _ Hr).
Qed.

Lemma some_loop_forallb (f : jsval -> result bool) (g ok : jsval -> bool)
      (l : list jsval) :
  (forall e, ok e = true -> f e = Ok (g e)) ->
  forallb ok l = true ->
  some_loop f l = Ok (existsb g l).
Proof.
  intros Hf; induction l as [|a l IH]; simpl; [reflexivity|].
  rewrite andb_true_iff; intros [Ha Hl].
  rewrite (Hf a Ha); simpl. destruct (g a); [reflexivity | now apply IH].
Qed.

Lemma privilege_check_loose (name : string) (v : jsval) :
  loosePrivileges v = true ->
  (if isArray v then some name v grantsCollMod else Ok false)
  = Ok (existsb entryGrants (privEntries v)).
Proof.
  unfold loosePrivileges. destruct v; simpl; try reflexivity.
  apply some_loop_forallb, grantsCollMod_loose.
Qed.

Lemma role_check_loose (name : string) (v : jsval) :
  looseRoles v = true ->
  some name (js_or v (JArr [])) isAdminRole
  = Ok (existsb entryIsAdmin (listOrEmpty v)).
Proof.
  unfold looseRoles, listOrEmpty, js_or.
  rewrite andb_true_iff, orb_true_iff.
  intros [[Hv|Hv] Hall].
  - apply negb_true_iff in Hv. rewrite Hv in *. reflexivity.
  - destruct v; try discriminate; simpl in *.
    now apply some_loop_forallb with (ok := readable);
      [apply isAdminRole_readable|].
Qed.

(** First match wins: once the inherited privileges grant the action, the
    other three fields are not looked at, whatever they hold. *)
Lemma canRunCollMod_first_match (fs : list (string * jsval)) (l : list jsval) :
  assoc "inheritedPrivileges" fs = JArr l ->
  some_loop grantsCollMod l = Ok true ->
  canRunCollMod (JObj fs) = Ok true.
Proof.
  intros Hip Hl. unfold canRunCollMod; simpl.
  rewrite Hip; simpl. now rewrite Hl.
Qed.

(** The check on a loosely shaped document, written out. *)
Lemma canRunCollMod_loose (u : jsval) :
  looseProfile u = true ->
  canRunCollMod u =
    Ok (existsb entryGrants (privEntries (fieldOf u "inheritedPrivileges")) ||
        existsb entryGrants (privEntries (fieldOf u "privileges")) ||
        existsb entryIsAdmin (listOrEmpty (fieldOf u "roles")) ||
        existsb entryIsAdmin (listOrEmpty (fieldOf u "inheritedRoles"))).
Proof.
  unfold looseProfile. rewrite !andb_true_iff.
  intros [[[[Hu Hip] Hp] Hr] Hir].
  pose proof (truthy_readable u Hu) as Hn.
  unfold canRunCollMod. rewrite Hu; simpl.
  rewrite !(get_readable u _ Hn); simpl.
  rewrite (privilege_check_loose _ _ Hip); simpl.
  destruct (existsb entryGrants (privEntries (fieldOf u "inheritedPrivileges")));
    [reflexivity|]; simpl.
  rewrite (privilege_check_loose _ _ Hp); simpl.
  destruct (existsb entryGrants (privEntries (fieldOf u "privileges")));
    [reflexivity|]; simpl.
  rewrite (role_check_loose _ _ Hr); simpl.
  destruct (existsb entryIsAdmin (listOrEmpty (fieldOf u "roles")));
    [reflexivity|]; simpl.
  rewrite (role_check_loose _ _ Hir); simpl.
  now destruct (existsb entryIsAdmin (listOrEmpty (fieldOf u "inheritedRoles"))).
Qed.

(** C10.  On a profile document that is present, whose privilege fields are
    either not arrays or arrays of entries with an absent or array-valued
    [actions], and whose role fields are absent or arrays of entries,
    [canRunCollMod] does not throw: it returns the disjunction of the four
    checks, in which a privilege field that is not an array, a missing role
    field and a missing [actions] list each count as the empty list. *)
Theorem canRunCollMod_total (u : jsval) :
  looseProfile u = true ->
  canRunCollMod u =
    Ok (existsb entryGrants (privEntries (fieldOf u "inheritedPrivileges")) ||
        existsb entryGrants (privEntries (fieldOf u "privileges")) ||
        existsb entryIsAdmin (listOrEmpty (fieldOf u "roles")) ||
        existsb entryIsAdmin (listOrEmpty (fieldOf u "inheritedRoles"))).
Proof. exact (canRunCollMod_loose u). Qed.

(** The sparse sample document: both privilege fields are skipped, the
    missing [roles] counts as empty, and the inherited [root] role decides. *)
Lemma canRunCollMod_total_witness :
  looseProfile Sample.sparse = true /\ canRunCollMod Sample.sparse = Ok true.
Proof.
  split; [reflexivity|].
  rewrite (canRunCollMod_total Sample.sparse); reflexivity.
Defined.

(** Outside that shape the check can throw: a [roles] field that is present
    but is not an array has no [some]. *)
Lemma canRunCollMod_roles_not_array :
  canRunCollMod (JObj [("roles", JNum 5)])
  = Throw (TypeError "roles.some is not a function").
Proof. reflexivity. Qed.

End Resolver.

(** ** Reasoning about the effect monad *)

Section Steps.

Variable R : State -> State -> Prop.
Hypothesis R_refl : forall s, R s s.
Hypothesis R_trans : forall a b c, R a b -> R b c -> R a c.

Lemma steps_ret {A} (a : A) : steps R (ret a).
Proof. intros s; apply R_refl. Qed.

Lemma steps_throw {A} (e : exn) : steps R (@throw A e).
Proof. intros s; apply R_refl. Qed.

Lemma steps_liftR {A} (r : result A) : steps R (liftR r).
Proof. intros s; apply R_refl. Qed.

Lemma steps_getMgr : steps R getMgr.
Proof. intros s; apply R_refl. Qed.

Lemma steps_thisDb : steps R thisDb.
Proof. intros s; unfold thisDb. destruct (db (mgr s)); apply R_refl. Qed.

Lemma steps_bind {A B} (m : M A) (k : A -> M B) :
  steps R m -> (forall a, steps R (k a)) -> steps R (bind m k).
Proof.
  intros Hm Hk s. unfold bind. specialize (Hm s).
  destruct (m s) as [[a|e] s1]; simpl in *; [|exact Hm].
  eapply R_trans; [exact Hm | apply Hk].
Qed.

Lemma steps_tryCatch {A} (body : M A) (handler : exn -> M A) :
  steps R body -> (forall e, steps R (handler e)) ->
  steps R (tryCatch body handler).
Proof.
  intros Hb Hh s. unfold tryCatch. specialize (Hb s).
  destruct (body s) as [[a|e] s1]; simpl in *; [exact Hb|].
  eapply R_trans; [exact Hb | apply Hh].
Qed.

Lemma steps_forOf {A} (l : list A) (f : A -> M unit) :
  (forall a, steps R (f a)) -> steps R (forOf l f).
Proof.
  intros Hf; induction l as [|a l IH]; simpl.
  - apply steps_ret.
  - apply steps_bind; auto.
Qed.

Lemma steps_fold {A} (f : State -> A -> State) (l : list A) :
  (forall s a, R s (f s a)) -> forall s, R s (fold_left f l s).
Proof.
  intros Hf; induction l as [|a l IH]; intros s; simpl.
  - apply R_refl.
  - eapply R_trans; [apply Hf | apply IH].
Qed.

Lemma steps_runHandlers drv (hs : list string) (change : jsval) :
  (forall h, In h hs -> steps R (onChange drv h change)) ->
  steps R (runHandlers drv hs change).
Proof.
  induction hs as [|h hs IH]; intros Hh s; simpl.
  - apply R_refl.
  - pose proof (Hh h (or_introl eq_refl) s) as H1.
    destruct (onChange drv h change s) as [[[]|e] s1]; simpl in *.
    + eapply R_trans; [exact H1|]. apply IH.
      intros h' Hin. apply Hh. now right.
    + exact H1.
Qed.

Lemma steps_dispatchAll drv (evs : list (string * jsval)) :
  (forall coll change, steps R (deliverAll drv coll change)) ->
  steps R (dispatchAll drv evs).
Proof.
  intros Hd. induction evs as [|[coll change] evs IH]; intros s; simpl.
  - apply R_refl.
  - pose proof (Hd coll change s) as H1.
    destruct (deliverAll drv coll change s) as [[[]|e] s1]; simpl in *.
    + eapply R_trans; [exact H1 | apply IH].
    + exact H1.
Qed.

End Steps.

(** Walks through the binds, loops and handlers of an operation, leaving the
    primitive effects to [prim]. *)
Ltac steps_with rf tr prim :=
  repeat first
    [ apply (steps_bind _ tr); [| intros ?]
    | apply (steps_tryCatch _ tr); [| intros ?]
    | apply (steps_forOf _ rf tr); intros ?
    | apply (steps_ret _ rf)
    | apply (steps_throw _ rf)
    | apply (steps_liftR _ rf)
    | apply (steps_getMgr _ rf)
    | apply (steps_thisDb _ rf)
    | prim ].

(** ** The configuration is written by [initialize] only *)

Section Frame.

Variable drv : Driver.

Lemma sameConfig_refl s : sameConfig s s.
Proof. reflexivity. Qed.

Lemma sameConfig_trans a b c : sameConfig a b -> sameConfig b c -> sameConfig a c.
Proof. unfold sameConfig; congruence. Qed.

Ltac frame_prim :=
  let s := fresh "s" in
  intros s; unfold sameConfig; cbv beta delta
    [emitEvent log warn record newDate emit watch applyTransform];
  repeat match goal with
         | |- context [match ?x with _ => _ end] => destruct x
         end; reflexivity.

Ltac frame := steps_with sameConfig_refl sameConfig_trans frame_prim.

Lemma frame_log l : steps sameConfig (log l).
Proof. frame_prim. Qed.

Lemma frame_warn l : steps sameConfig (warn l).
Proof. frame_prim. Qed.

Lemma frame_emit r : steps sameConfig (emit r).
Proof. frame_prim. Qed.

Lemma frame_watch c : steps sameConfig (watch c).
Proof. frame_prim. Qed.

Lemma frame_newDate : steps sameConfig (newDate drv).
Proof. frame_prim. Qed.

Lemma frame_applyTransform x : steps sameConfig (applyTransform x).
Proof. frame_prim. Qed.

Lemma frame_dbCommand c : steps sameConfig (dbCommand drv c).
Proof. unfold dbCommand. frame. Qed.

Lemma frame_insertOne dest r : steps sameConfig (insertOne drv dest r).
Proof.
  unfold insertOne. frame.
Qed.

Lemma frame_createAuditDoc change c :
  steps sameConfig (createAuditDoc drv change c).
Proof.
  unfold createAuditDoc. frame;
    first [apply frame_applyTransform | apply frame_newDate].
Qed.

Lemma frame_onChange c change : steps sameConfig (onChange drv c change).
Proof.
  unfold onChange. frame;
    first [apply frame_createAuditDoc | apply frame_insertOne | apply frame_emit].
Qed.

Lemma frame_ensurePreImageEnabled c :
  steps sameConfig (ensurePreImageEnabled drv c).
Proof.
  unfold ensurePreImageEnabled. frame;
    try first [apply frame_dbCommand | apply frame_log].
  destruct (negb (truthy _)); [apply frame_warn|]. frame;
    try first [apply frame_dbCommand | apply frame_log].
  destruct (negb (truthy _)); [apply frame_warn|]. frame;
    first [apply frame_dbCommand | apply frame_log | apply frame_warn].
Qed.

Lemma frame_start : steps sameConfig start.
Proof.
  unfold start. frame. destruct (db _); frame;
    first [apply frame_watch | apply frame_log].
Qed.

Lemma frame_deliver coll change s : sameConfig s (deliver drv coll change s).
Proof.
  unfold deliver, deliverAll.
  apply (steps_runHandlers sameConfig sameConfig_refl sameConfig_trans).
  intros h _. apply frame_onChange.
Qed.

(** C9.  [start], [ensurePreImageEnabled], [createAuditDoc], the change
    listener and any run of notifications through the open feeds leave the
    five configuration fields [client], [db], [collections],
    [auditCollection] and [transform] as they found them, whether they
    return or throw. *)
Theorem configuration_frame (s : State) :
  mgr (snd (start s)) = mgr s /\
  (forall c, mgr (snd (ensurePreImageEnabled drv c s)) = mgr s) /\
  (forall change c, mgr (snd (createAuditDoc drv change c s)) = mgr s) /\
  (forall c change, mgr (snd (onChange drv c change s)) = mgr s) /\
  (forall evs, mgr (dispatch drv evs s) = mgr s).
Proof.
  repeat split; intros.
  - apply frame_start.
  - apply frame_ensurePreImageEnabled.
  - apply frame_createAuditDoc.
  - apply frame_onChange.
  - unfold dispatch.
    apply (steps_dispatchAll sameConfig sameConfig_refl sameConfig_trans).
    intros coll change st. apply frame_deliver.
Qed.

End Frame.

(** ** AuditRecordBuilder *)

Section Builder.

Variable drv : Driver.

Lemma createAuditDoc_plain (e : ChangeEvent) (coll : string) (s : State) :
  transform (mgr s) = None ->
  let t := now s + Z.of_N (drv_elapsed drv (trace s)) in
  createAuditDoc drv (encChange e) coll s =
  (Ok {| collection := coll;
         documentId := documentKey e;
         operation := JStr (operationType e);
         timestamp := t;
         before := recorded (fullDocumentBeforeChange e);
         after := recorded (fullDocument e) |},
   {| mgr := mgr s; observers := observers s; streams := streams s;
      now := t; trace := trace s |}).
Proof.
  intros Hf. destruct e as [op key B A].
  unfold createAuditDoc, bind, liftR, applyTransform, newDate, ret, js_or; simpl.
  destruct B, A; simpl; rewrite ?Hf; reflexivity.
Qed.

Lemma createAuditDoc_transformed (e : ChangeEvent) (coll : string) (s : State)
      (f : Transform) (tb ta : jsval) :
  transform (mgr s) = Some f ->
  transformed f (fullDocumentBeforeChange e) = Ok tb ->
  transformed f (fullDocument e) = Ok ta ->
  let tr := trace s ++ transformCalls (fullDocumentBeforeChange e)
                    ++ transformCalls (fullDocument e) in
  let t := now s + Z.of_N (drv_elapsed drv tr) in
  createAuditDoc drv (encChange e) coll s =
  (Ok {| collection := coll;
         documentId := documentKey e;
         operation := JStr (operationType e);
         timestamp := t;
         before := tb;
         after := ta |},
   {| mgr := mgr s; observers := observers s; streams := streams s;
      now := t; trace := tr |}).
Proof.
  intros Hf Hb Ha. destruct e as [op key B A]; simpl in *.
  unfold createAuditDoc, bind, liftR, applyTransform, newDate, ret, record,
    js_or; simpl.
  destruct B, A; simpl in *; rewrite ?Hf; simpl;
    rewrite ?Hb; simpl; rewrite ?Hf; simpl; rewrite ?Ha; simpl;
    try (injection Hb as <-); try (injection Ha as <-);
    rewrite ?app_nil_r, <- ?app_assoc; reflexivity.
Qed.

(** C5.  With no transform configured, [createAuditDoc] turns the
    notification of a change with document key [{_id: X}], before-image [B]
    and after-image [A] into the record that carries the collection name it
    was given, [documentId = X], the operation kind of the notification
    ([update] for an update), [before = B] and [after = A], where an image
    that is absent is recorded as [null]; the timestamp is what the clock
    shows when it is read while the record is built, that is the reading at
    which the builder was entered plus the time that has passed since, so
    it is not earlier than the time at which the builder was entered. *)
Theorem createAuditDoc_record_shape (e : ChangeEvent) (coll : string) (s : State) :
  transform (mgr s) = None ->
  exists r,
    fst (createAuditDoc drv (encChange e) coll s) = Ok r /\
    collection r = coll /\
    documentId r = documentKey e /\
    operation r = JStr (operationType e) /\
    (operationType e = "update"%string -> operation r = JStr "update") /\
    before r = recorded (fullDocumentBeforeChange e) /\
    after r = recorded (fullDocument e) /\
    (forall fs, fullDocumentBeforeChange e = Doc fs -> before r = JObj fs) /\
    (forall fs, fullDocument e = Doc fs -> after r = JObj fs) /\
    (fullDocumentBeforeChange e = Absent -> before r = JNull) /\
    (fullDocument e = Absent -> after r = JNull) /\
    now s <= timestamp r /\
    timestamp r = now (snd (createAuditDoc drv (encChange e) coll s)) /\
    timestamp r = now s + Z.of_N (drv_elapsed drv (trace s)).
Proof.
  intros Hf. rewrite (createAuditDoc_plain e coll s Hf); simpl.
  eexists; split; [reflexivity|]; simpl.
  repeat split; try reflexivity.
  - now intros ->.
  - now intros fs ->.
  - now intros fs ->.
  - now intros ->.
  - now intros ->.
  - lia.
Qed.

(** C6.  With a transform [f] configured, [createAuditDoc] calls [f] once on
    each image that is a document, on nothing else, and puts the results in
    [before] and [after]; an image that is absent or [null] is recorded as
    [null] and [f] is not called for it. *)
Theorem createAuditDoc_transform_isolation
        (e : ChangeEvent) (coll : string) (s : State) (f : Transform)
        (tb ta : jsval) :
  transform (mgr s) = Some f ->
  transformed f (fullDocumentBeforeChange e) = Ok tb ->
  transformed f (fullDocument e) = Ok ta ->
  exists r,
    fst (createAuditDoc drv (encChange e) coll s) = Ok r /\
    before r = tb /\ after r = ta /\
    (forall fs, fullDocumentBeforeChange e = Doc fs -> f (JObj fs) = Ok (before r)) /\
    (forall fs, fullDocument e = Doc fs -> f (JObj fs) = Ok (after r)) /\
    ((forall fs, fullDocumentBeforeChange e <> Doc fs) -> before r = JNull) /\
    ((forall fs, fullDocument e <> Doc fs) -> after r = JNull) /\
    exists calls,
      trace (snd (createAuditDoc drv (encChange e) coll s)) = trace s ++ calls /\
      calls = transformCalls (fullDocumentBeforeChange e)
              ++ transformCalls (fullDocument e) /\
      (forall x, In (ETransform x) calls ->
         exists fs, x = JObj fs /\
           (fullDocumentBeforeChange e = Doc fs \/ fullDocument e = Doc fs)) /\
      (List.length calls <= 2)%nat.
Proof.
  intros Hf Hb Ha.
  rewrite (createAuditDoc_transformed e coll s f tb ta Hf Hb Ha); simpl.
  eexists; split; [reflexivity|]; simpl.
  destruct e as [op key B A]; simpl in *.
  repeat split; try reflexivity.
  - intros fs ->; exact Hb.
  - intros fs ->; exact Ha.
  - intros HB. destruct B; simpl in Hb; try congruence.
    now destruct (HB fields).
  - intros HA. destruct A; simpl in Ha; try congruence.
    now destruct (HA fields).
  - eexists; repeat split; try reflexivity.
    + intros x Hin. apply in_app_or in Hin.
      destruct Hin as [Hin|Hin]; [destruct B | destruct A]; simpl in Hin;
        try contradiction; destruct Hin as [Hin|[]];
        injection Hin as <-; eauto.
    + destruct B, A; simpl; lia.
Qed.

End Builder.

(** The redacting transform on an insert: the after-image is redacted, the
    missing before-image stays [null]. *)
Lemma createAuditDoc_transform_isolation_witness :
  exists r,
    fst (createAuditDoc (Sample.server Sample.reader false)
           (encChange Sample.insertEvent) "orders"
           (Sample.running (Some Sample.redact))) = Ok r /\
    before r = JNull /\
    after r = JObj [("redacted", JBool true)].
Proof.
  destruct (createAuditDoc_transform_isolation
              (Sample.server Sample.reader false) Sample.insertEvent "orders"
              (Sample.running (Some Sample.redact)) Sample.redact
              JNull (JObj [("redacted", JBool true)])
              eq_refl eq_refl eq_refl)
    as (r & Hr & Hb & Ha & _).
  exists r. auto.
Defined.

(** An update of order 7 with no transform configured: the builder is
    entered at 1000, two milliseconds pass, and the record is stamped 1002. *)
Lemma createAuditDoc_record_shape_witness :
  now (Sample.running None) = 1000 /\
  exists r,
    fst (createAuditDoc (Sample.server Sample.reader false)
           (encChange Sample.updateEvent) "orders"
           (Sample.running None)) = Ok r /\
    documentId r = JNum 7 /\ operation r = JStr "update" /\
    timestamp r = 1002.
Proof.
  split; [reflexivity|].
  destruct (createAuditDoc_record_shape
              (Sample.server Sample.reader false) Sample.updateEvent "orders"
              (Sample.running None) eq_refl)
    as (r & Hr & _ & Hid & Hop & _ & _ & _ & _ & _ & _ & _ & _ & _ & Hts).
  exists r. repeat split; auto.
Defined.

(** ** Histories *)

Section Histories.

Variable drv : Driver.

Lemma extends_refl ok s : extends ok s s.
Proof. exists []. now rewrite app_nil_r. Qed.

Lemma extends_trans ok a b c :
  extends ok a b -> extends ok b c -> extends ok a c.
Proof.
  intros (d1 & H1 & O1) (d2 & H2 & O2). exists (d1 ++ d2). split.
  - now rewrite H2, H1, app_assoc.
  - now rewrite forallb_app, O1, O2.
Qed.

Lemma extends_weaken (ok ok' : event -> bool) s s' :
  (forall e, ok e = true -> ok' e = true) ->
  extends ok s s' -> extends ok' s s'.
Proof.
  intros Hw (d & Hd & Hok). exists d. split; [exact Hd|].
  rewrite forallb_forall in *. auto.
Qed.

Lemma extends_record ok e s : ok e = true -> extends ok s (record e s).
Proof. intros He. exists [e]. simpl. now rewrite He. Qed.

Lemma sameFeeds_refl s : sameFeeds s s.
Proof. now split. Qed.

Lemma sameFeeds_trans a b c : sameFeeds a b -> sameFeeds b c -> sameFeeds a c.
Proof. unfold sameFeeds. intros [] []. split; congruence. Qed.

Ltac calls_prim :=
  let s := fresh "s" in
  intros s; cbv beta delta [applyTransform newDate];
  repeat match goal with
         | |- context [match ?x with _ => _ end] => destruct x
         | |- context [if ?x then _ else _] => destruct x
         end;
  first [ apply extends_refl | now apply extends_record ].

(** Building a record adds nothing to the history but the calls of the
    transform. *)
Lemma createAuditDoc_calls change c :
  steps (extends isTransformCall) (createAuditDoc drv change c).
Proof.
  unfold createAuditDoc.
  steps_with (extends_refl isTransformCall) (extends_trans isTransformCall)
             calls_prim.
Qed.

Ltac feeds_prim :=
  let s := fresh "s" in
  intros s; unfold sameFeeds;
  cbv beta delta [emitEvent log warn record newDate emit applyTransform setMgr
                  dbCommand connect insertOne];
  repeat match goal with
         | |- context [match ?x with _ => _ end] => destruct x
         | |- context [if ?x then _ else _] => destruct x
         end; split; reflexivity.

Ltac feeds := steps_with sameFeeds_refl sameFeeds_trans feeds_prim.

Lemma feeds_createAuditDoc change c :
  steps sameFeeds (createAuditDoc drv change c).
Proof. unfold createAuditDoc. feeds. Qed.

Lemma feeds_dbCommand c : steps sameFeeds (dbCommand drv c).
Proof. unfold dbCommand. feeds. Qed.

Lemma feeds_insertOne dest r : steps sameFeeds (insertOne drv dest r).
Proof. unfold insertOne. feeds. Qed.

Lemma feeds_onChange c change : steps sameFeeds (onChange drv c change).
Proof.
  unfold onChange. feeds;
    first [apply feeds_createAuditDoc | apply feeds_insertOne].
Qed.

Lemma feeds_deliver coll change s : sameFeeds s (deliver drv coll change s).
Proof.
  unfold deliver, deliverAll.
  apply (steps_runHandlers sameFeeds sameFeeds_refl sameFeeds_trans).
  intros h _. apply feeds_onChange.
Qed.

Lemma split_after {A} (l1 : list A) (x : A) (l2 pre : list A) (y : A)
      (post : list A) :
  l1 ++ x :: l2 = pre ++ y :: post ->
  ~ In y l1 -> y <> x ->
  In x pre /\ In y l2.
Proof.
  revert pre; induction l1 as [|a l1 IH]; intros pre Heq Hy Hxy.
  - destruct pre as [|b pre]; simpl in Heq; injection Heq as Hx Hl.
    + now subst.
    + subst. split; [now left | apply in_elt].
  - destruct pre as [|b pre]; simpl in Heq; injection Heq as Ha Hl.
    + subst. exfalso. apply Hy. now left.
    + subst. destruct (IH pre Hl) as [Hp Hq]; auto.
      * intros Hin. apply Hy. now right.
      * split; [now right | exact Hq].
Qed.

Lemma split_within {A} (l d pre : list A) (y : A) (post : list A) :
  l ++ d = pre ++ y :: post -> ~ In y d ->
  exists post', l = pre ++ y :: post'.
Proof.
  revert pre; induction l as [|a l IH]; intros pre Heq Hy.
  - simpl in Heq. exfalso. apply Hy. rewrite Heq. apply in_elt.
  - destruct pre as [|b pre]; simpl in Heq; injection Heq as Ha Hl.
    + subst. now exists l.
    + subst. destruct (IH pre Hl Hy) as [post' ->]. now exists post'.
Qed.

Lemma no_notify_in ok (d : list event) o r :
  forallb ok d = true -> ok (ENotify o r) = false -> ~ In (ENotify o r) d.
Proof.
  intros Hd Hok Hin. rewrite forallb_forall in Hd.
  specialize (Hd _ Hin). congruence.
Qed.

Lemma no_commit_in (d : list event) dest r :
  forallb isTransformCall d = true -> ~ In (EInsert dest r) d.
Proof.
  intros Hd Hin. rewrite forallb_forall in Hd.
  specialize (Hd _ Hin). discriminate.
Qed.

Lemma deliveriesTo_app o d1 d2 :
  deliveriesTo o (d1 ++ d2) = (deliveriesTo o d1 + deliveriesTo o d2)%nat.
Proof. unfold deliveriesTo. now rewrite filter_app, length_app. Qed.

Lemma deliveriesTo_calls o d :
  forallb isTransformCall d = true -> deliveriesTo o d = 0%nat.
Proof.
  unfold deliveriesTo. induction d as [|e d IH]; simpl; [reflexivity|].
  rewrite andb_true_iff. intros [He Hd]. destruct e; try discriminate.
  now apply IH.
Qed.

Lemma deliveriesTo_emit o r obs :
  deliveriesTo o (map (fun o' => ENotify o' r) obs) = registrations o obs.
Proof.
  unfold deliveriesTo, registrations.
  induction obs as [|a obs IH]; simpl; [reflexivity|].
  destruct (Nat.eqb a o); simpl; now rewrite IH.
Qed.

(** What the listener adds to the history, case by case. *)
Lemma onChange_history collName change s :
  exists calls,
    forallb isTransformCall calls = true /\
    ((exists e, fst (onChange drv collName change s) = Throw e /\
        trace (snd (onChange drv collName change s)) = trace s ++ calls /\
        (fst (createAuditDoc drv change collName s) = Throw e \/
         db (mgr s) = None))
     \/
     (exists r s1 e,
        createAuditDoc drv change collName s = (Ok r, s1) /\
        drv_insertOne drv (trace s1) (auditCollection (mgr s)) r = Throw e /\
        fst (onChange drv collName change s) = Throw e /\
        trace (snd (onChange drv collName change s)) =
          trace s ++ calls ++ [EInsertFailed (auditCollection (mgr s)) r])
     \/
     (exists r s1,
        createAuditDoc drv change collName s = (Ok r, s1) /\
        drv_insertOne drv (trace s1) (auditCollection (mgr s)) r = Ok tt /\
        db (mgr s) <> None /\
        fst (onChange drv collName change s) = Ok tt /\
        trace (snd (onChange drv collName change s)) =
          trace s ++ calls ++ EInsert (auditCollection (mgr s)) r
                  :: map (fun o => ENotify o r) (observers s))).
Proof.
  destruct (createAuditDoc_calls change collName s) as (calls & Htr & Hcalls).
  pose proof (frame_createAuditDoc drv change collName s) as Hcfg.
  pose proof (feeds_createAuditDoc change collName s) as [_ Hobs].
  exists calls. split; [exact Hcalls|].
  unfold onChange, insertOne, bind, getMgr, thisDb, emit, record.
  destruct (createAuditDoc drv change collName s) as [[r|e] s1] eqn:Hc;
    simpl in *; unfold sameConfig in Hcfg.
  - rewrite Hcfg. destruct (db (mgr s)) as [d|] eqn:Hdb.
    + destruct (drv_insertOne drv (trace s1) (auditCollection (mgr s)) r)
        as [[]|e] eqn:Hins; simpl.
      * right; right. exists r, s1. repeat split; auto; try congruence.
        now rewrite Htr, Hobs, <- !app_assoc.
      * right; left. exists r, s1, e. repeat split; auto.
        now rewrite Htr, <- !app_assoc.
    + left. eexists. repeat split; auto.
  - left. exists e. repeat split; auto.
Qed.

(** C7.  Whatever the listener adds to the history for one notification,
    a notification of an observer with record [r] comes after the insert of
    [r] into the destination collection; when the record is inserted, the
    insert is followed at once by one notification per registered observer,
    in registration order, and by nothing else, so that every observer
    receives the record exactly as many times as it is registered (once, for
    an observer registered once); when nothing is inserted nobody is
    notified; and the record is inserted whenever it could be built and the
    write went through. *)
Theorem onChange_commit_then_notify (collName : string) (change : jsval)
        (s : State) :
  exists d,
    trace (snd (onChange drv collName change s)) = trace s ++ d /\
    (forall pre o r post,
        d = pre ++ ENotify o r :: post ->
        In (EInsert (auditCollection (mgr s)) r) pre) /\
    (forall dest r,
        In (EInsert dest r) d ->
        fst (onChange drv collName change s) = Ok tt /\
        dest = auditCollection (mgr s) /\
        (exists calls,
            forallb isTransformCall calls = true /\
            d = calls ++ EInsert dest r
                      :: map (fun o => ENotify o r) (observers s)) /\
        (forall o, deliveriesTo o d = registrations o (observers s))) /\
    ((forall dest r, ~ In (EInsert dest r) d) ->
        forall o, deliveriesTo o d = 0%nat) /\
    (forall r s1,
        createAuditDoc drv change collName s = (Ok r, s1) ->
        db (mgr s) <> None ->
        drv_insertOne drv (trace s1) (auditCollection (mgr s)) r = Ok tt ->
        In (EInsert (auditCollection (mgr s)) r) d).
Proof.
  destruct (onChange_history collName change s) as (calls & Hcalls & Hcases).
  destruct Hcases as [(e & Hres & Htr & Hwhy)
                     |[(r0 & s1 & e & Hc & Hins & Hres & Htr)
                      |(r0 & s1 & Hc & Hins & Hdb & Hres & Htr)]].
  - exists calls. split; [exact Htr|]. repeat split.
    + intros pre o r post ->. exfalso.
      eapply (no_notify_in isTransformCall); [exact Hcalls | reflexivity |].
      apply in_elt.
    + exfalso. eapply no_commit_in; eauto.
    + exfalso. eapply no_commit_in; eauto.
    + exfalso. eapply no_commit_in; eauto.
    + exfalso. eapply no_commit_in; eauto.
    + intros _ o. now apply deliveriesTo_calls.
    + intros r s1 Hc Hdb Hins. exfalso. destruct Hwhy as [Hw|Hw].
      * rewrite Hc in Hw. discriminate.
      * contradiction.
  - exists (calls ++ [EInsertFailed (auditCollection (mgr s)) r0]).
    assert (Hnone : forall dest r,
               ~ In (EInsert dest r)
                    (calls ++ [EInsertFailed (auditCollection (mgr s)) r0])).
    { intros dest r Hin. apply in_app_or in Hin. destruct Hin as [Hin|Hin].
      - eapply no_commit_in; eauto.
      - destruct Hin as [Hin|[]]. discriminate. }
    split; [exact Htr|]. repeat split; try (exfalso; eapply Hnone; eauto; fail).
    + intros pre o r post Heq. exfalso.
      assert (Hin : In (ENotify o r)
                       (calls ++ [EInsertFailed (auditCollection (mgr s)) r0]))
        by (rewrite Heq; apply in_elt).
      apply in_app_or in Hin. destruct Hin as [Hin|Hin].
      * eapply (no_notify_in isTransformCall); eauto.
      * destruct Hin as [Hin|[]]. discriminate.
    + intros _ o. rewrite deliveriesTo_app, deliveriesTo_calls by exact Hcalls.
      reflexivity.
    + intros r s2 Hc' _ Hins'. rewrite Hc in Hc'. injection Hc' as <- <-.
      rewrite Hins in Hins'. discriminate.
  - exists (calls ++ EInsert (auditCollection (mgr s)) r0
                  :: map (fun o => ENotify o r0) (observers s)).
    assert (Honly : forall dest r,
               In (EInsert dest r)
                  (calls ++ EInsert (auditCollection (mgr s)) r0
                         :: map (fun o => ENotify o r0) (observers s)) ->
               dest = auditCollection (mgr s) /\ r = r0).
    { intros dest r Hin. apply in_app_or in Hin. destruct Hin as [Hin|Hin].
      - exfalso. eapply no_commit_in; eauto.
      - destruct Hin as [Hin|Hin].
        + injection Hin as <- <-. now split.
        + apply in_map_iff in Hin. destruct Hin as (o & Ho & _). discriminate. }
    split; [exact Htr|]. repeat split.
    + intros pre o r post Heq.
      destruct (split_after _ _ _ _ _ _ Heq) as [Hpre Hin].
      * eapply (no_notify_in isTransformCall); eauto.
      * discriminate.
      * apply in_map_iff in Hin. destruct Hin as (o' & Ho' & _).
        injection Ho' as _ <-. exact Hpre.
    + exact Hres.
    + now destruct (Honly _ _ H).
    + destruct (Honly _ _ H) as [-> ->]. exists calls. now split.
    + intros o. rewrite deliveriesTo_app, deliveriesTo_calls by exact Hcalls.
      simpl. unfold deliveriesTo at 1. simpl.
      apply deliveriesTo_emit.
    + intros Hnone o. exfalso. eapply Hnone. apply in_elt.
    + intros r s2 Hc' _ _. rewrite Hc in Hc'. injection Hc' as <- <-.
      apply in_elt.
Qed.

End Histories.

(** ** A transform that raises *)

Section TransformFailure.

Variable drv : Driver.

Lemma onlyCalls_refl s : onlyCalls s s.
Proof. repeat split. apply extends_refl. Qed.

Lemma onlyCalls_trans a b c : onlyCalls a b -> onlyCalls b c -> onlyCalls a c.
Proof.
  intros (M1 & S1 & O1 & N1 & E1) (M2 & S2 & O2 & N2 & E2).
  repeat split; try congruence. eapply extends_trans; eauto.
Qed.

Lemma createAuditDoc_raises (e : ChangeEvent) (coll : string) (s : State)
      (f : Transform) (err : exn) :
  transform (mgr s) = Some f -> raisesOn f e err ->
  fst (createAuditDoc drv (encChange e) coll s) = Throw err /\
  onlyCalls s (snd (createAuditDoc drv (encChange e) coll s)).
Proof.
  intros Hf Hr. destruct e as [op key B A]; unfold raisesOn in Hr; simpl in Hr.
  unfold createAuditDoc, bind, liftR, applyTransform, newDate, ret, record,
    js_or; simpl.
  destruct Hr as [Hb|(tb & Hb & Ha)].
  - destruct B; simpl in Hb; try discriminate; simpl.
    rewrite Hf, Hb; simpl. split; [reflexivity|].
    repeat split. now exists [ETransform (JObj fields)].
  - destruct A; simpl in Ha; try discriminate.
    destruct B; simpl in *; rewrite ?Hf; simpl; rewrite ?Hb; simpl;
      rewrite ?Hf, Ha; simpl; (split; [reflexivity|]); repeat split.
    + now exists [ETransform (JObj fields)].
    + now exists [ETransform (JObj fields)].
    + exists [ETransform (JObj fields0); ETransform (JObj fields)].
      simpl. now rewrite <- app_assoc.
Qed.

Lemma onChange_raises (e : ChangeEvent) (coll : string) (s : State)
      (f : Transform) (err : exn) :
  transform (mgr s) = Some f -> raisesOn f e err ->
  fst (onChange drv coll (encChange e) s) = Throw err /\
  onlyCalls s (snd (onChange drv coll (encChange e) s)).
Proof.
  intros Hf Hr.
  destruct (createAuditDoc_raises e coll s f err Hf Hr) as [Hres Hs].
  unfold onChange, bind.
  destruct (createAuditDoc drv (encChange e) coll s) as [[r|x] s1];
    simpl in *; [discriminate|].
  injection Hres as ->. now split.
Qed.

(** When the transform raises, the first listener on the feed rejects with
    the transform's error and the delivery ends there. *)
Lemma deliver_raises (e : ChangeEvent) (coll : string) (s : State)
      (f : Transform) (err : exn) :
  transform (mgr s) = Some f -> raisesOn f e err ->
  In coll (streams s) ->
  fst (deliverAll drv coll (encChange e) s) = Throw err /\
  onlyCalls s (deliver drv coll (encChange e) s).
Proof.
  intros Hf Hr Hin. unfold deliver, deliverAll.
  destruct (filter (String.eqb coll) (streams s)) as [|h l] eqn:Hfl.
  - exfalso. assert (Hc : In coll (filter (String.eqb coll) (streams s))).
    { apply filter_In. split; [exact Hin | apply String.eqb_refl]. }
    rewrite Hfl in Hc. exact Hc.
  - simpl. destruct (onChange_raises e h s f err Hf Hr) as [Hres Hs].
    destruct (onChange drv h (encChange e) s) as [[[]|x] s1]; simpl in *;
      [discriminate|].
    injection Hres as ->. now split.
Qed.

(** Nothing is handled after a delivery in which a listener rejected. *)
Lemma dispatch_stops (coll : string) (change : jsval) (s : State) (err : exn)
      (rest : list (string * jsval)) :
  fst (deliverAll drv coll change s) = Throw err ->
  dispatchAll drv ((coll, change) :: rest) s = deliverAll drv coll change s.
Proof.
  intros Hd. simpl.
  destruct (deliverAll drv coll change s) as [[[]|x] s1]; simpl in *;
    [discriminate | reflexivity].
Qed.

(** A transform that raises on one notification ends the feed: the listener
    rejects, nothing is inserted and nobody is notified for that
    notification, and no later notification is handled. *)
Lemma transform_failure_ends_dispatch
      (e : ChangeEvent) (coll : string) (s : State) (f : Transform)
      (err : exn) (rest : list (string * jsval)) :
  transform (mgr s) = Some f -> raisesOn f e err ->
  In coll (streams s) ->
  fst (dispatchAll drv ((coll, encChange e) :: rest) s) = Throw err /\
  onlyCalls s (dispatch drv ((coll, encChange e) :: rest) s).
Proof.
  intros Hf Hr Hin.
  destruct (deliver_raises e coll s f err Hf Hr Hin) as [Hres Hs].
  unfold dispatch. rewrite (dispatch_stops coll _ s err rest Hres).
  now split.
Qed.

End TransformFailure.

(** C8, at a draft order.  The [strict] transform raises on the draft order.
    The listener has nothing that catches this: it rejects with the
    transform's error, no record is inserted for the draft, and nobody
    handles the rejection, so the run of the feed ends there; the paid order
    that follows on the same feed, which is inserted when it comes alone, is
    never handled. *)
Theorem transform_failure_ends_feed :
  let drv := Sample.server Sample.reader false in
  let s := Sample.running (Some Sample.strict) in
  let draft := ("orders", encChange Sample.draftEvent) in
  let paid := ("orders", encChange Sample.insertEvent) in
  fst (onChange drv "orders" (snd draft) s)
  = Throw (UserError "status is required") /\
  fst (dispatchAll drv [draft; paid] s)
  = Throw (UserError "status is required") /\
  dispatch drv [draft; paid] s = dispatch drv [draft] s /\
  countEvents isInsert (trace (dispatch drv [draft; paid] s)) = 0%nat /\
  fst (dispatchAll drv [paid] s) = Ok tt /\
  countEvents isInsert (trace (dispatch drv [paid] s)) = 1%nat.
Proof.
  intros drv s draft paid.
  split; [vm_compute; reflexivity|].
  split; [vm_compute; reflexivity|].
  split; [vm_compute; reflexivity|].
  split; [vm_compute; reflexivity|].
  split; vm_compute; reflexivity.
Qed.

(** ** PreImageProvisioner *)

Section Provisioner.

Variable drv : Driver.

Lemma dbCommand_run c s :
  db (mgr s) <> None ->
  dbCommand drv c s = (drv_command drv (trace s) c, record (ECommand c) s).
Proof.
  intros Hdb. unfold dbCommand, bind, thisDb.
  destruct (db (mgr s)); [reflexivity | contradiction].
Qed.

Lemma get_truthy v k : truthy v = true -> get v k = Ok (fieldOf v k).
Proof. intros H. apply get_readable. now apply truthy_readable. Qed.

Lemma canRunCollMod_present u :
  truthy u = false \/ looseProfile u = true -> exists b, canRunCollMod u = Ok b.
Proof.
  intros [H|H].
  - exists false. unfold canRunCollMod. now rewrite H.
  - eexists. now apply canRunCollMod_loose.
Qed.

(** How a provisioning attempt runs when the status commands answer. *)
Lemma ensurePreImageEnabled_outcomes (c : string) (s : State) :
  statusCommandsAnswer drv -> db (mgr s) <> None ->
  fst (ensurePreImageEnabled drv c s) = Ok tt /\
  exists userInfo,
    let t1 := [ECommand ConnectionStatus; ELog (ConnectedUser userInfo)] in
    (truthy userInfo = false /\
     trace (snd (ensurePreImageEnabled drv c s)) =
       trace s ++ t1 ++ [EWarn NoAuthenticatedUser])
    \/
    exists u d userData,
      let t2 := t1 ++ [ECommand (UsersInfo u d)] in
      truthy userInfo = true /\
      ((truthy userData = false /\
        trace (snd (ensurePreImageEnabled drv c s)) =
          trace s ++ t2 ++ [EWarn (UserNotFound u d)])
       \/
       exists b,
         let t3 := t2 ++ [ELog (Enabling c)] in
         truthy userData = true /\ canRunCollMod userData = Ok b /\
         ((exists reply,
             drv_command drv (trace s ++ t3) (CollMod c) = Ok reply /\
             trace (snd (ensurePreImageEnabled drv c s)) =
               trace s ++ t3 ++ [ECommand (CollMod c); ELog (Enabled c)])
          \/
          (exists e,
             drv_command drv (trace s ++ t3) (CollMod c) = Throw e /\
             trace (snd (ensurePreImageEnabled drv c s)) =
               trace s ++ t3 ++ [ECommand (CollMod c);
                                 EWarn (CouldNotEnable c (message e))]))).
Proof.
  intros [Hcs Hui] Hdb.
  destruct (Hcs (trace s)) as (reply & authInfo & users & userInfo
                               & Hr & Hai & Hau & Hu0).
  destruct (ensurePreImageEnabled drv c s) as [res s'] eqn:Hrun.
  unfold ensurePreImageEnabled in Hrun.
  unfold bind at 1 in Hrun. rewrite (dbCommand_run _ _ Hdb), Hr in Hrun.
  unfold bind at 1, liftR at 1 in Hrun. rewrite Hai in Hrun.
  unfold bind at 1, liftR at 1 in Hrun. rewrite Hau in Hrun.
  unfold bind at 1, liftR at 1 in Hrun. rewrite Hu0 in Hrun.
  unfold bind at 1, log at 1, emitEvent at 1 in Hrun.
  destruct (truthy userInfo) eqn:Htu; unfold negb in Hrun;
    cbv beta iota in Hrun.
  2:{ injection Hrun as <- <-. split; [reflexivity|].
      exists userInfo. left. split; [exact Htu|].
      simpl; rewrite <- ?app_assoc; reflexivity. }
  unfold bind at 1, liftR at 1 in Hrun. rewrite (get_truthy _ _ Htu) in Hrun.
  unfold bind at 1, liftR at 1 in Hrun. rewrite (get_truthy _ _ Htu) in Hrun.
  set (u := fieldOf userInfo "user") in *.
  set (d := fieldOf userInfo "db") in *.
  set (s2 := record (ELog (ConnectedUser userInfo))
                    (record (ECommand ConnectionStatus) s)) in *.
  assert (Hdb2 : db (mgr s2) <> None) by exact Hdb.
  destruct (Hui (trace s2) u d) as (ureply & uusers & userData
                                    & Hur & Hus & Hud & Hshape).
  unfold bind at 1 in Hrun. rewrite (dbCommand_run _ _ Hdb2), Hur in Hrun.
  unfold bind at 1, liftR at 1 in Hrun. rewrite Hus in Hrun.
  unfold bind at 1, liftR at 1 in Hrun. rewrite Hud in Hrun.
  destruct (truthy userData) eqn:Htd; unfold negb in Hrun;
    cbv beta iota in Hrun.
  2:{ injection Hrun as <- <-. split; [reflexivity|].
      exists userInfo. right. exists u, d, userData.
      split; [exact Htu|]. left. split; [exact Htd|].
      simpl; rewrite <- ?app_assoc; reflexivity. }
  assert (Hb : exists b, canRunCollMod userData = Ok b).
  { destruct Hshape as [Hx|Hx]; [discriminate|].
    apply canRunCollMod_present. now right. }
  destruct Hb as [b Hb].
  unfold bind at 1, liftR at 1 in Hrun. rewrite Hb in Hrun.
  set (s3 := record (ECommand (UsersInfo u d)) s2) in *.
  assert (Hdb3 : db (mgr (record (ELog (Enabling c)) s3)) <> None) by exact Hdb.
  unfold tryCatch, bind, log, warn, emitEvent in Hrun.
  rewrite (dbCommand_run _ _ Hdb3) in Hrun.
  assert (Htr : trace (record (ELog (Enabling c)) s3) =
                trace s ++ ([ECommand ConnectionStatus; ELog (ConnectedUser userInfo)]
                            ++ [ECommand (UsersInfo u d)]) ++ [ELog (Enabling c)]).
  { simpl; rewrite <- ?app_assoc; reflexivity. }
  destruct (drv_command drv (trace (record (ELog (Enabling c)) s3)) (CollMod c))
    as [creply|e] eqn:Hcm; injection Hrun as <- <-; (split; [reflexivity|]);
    exists userInfo; right; exists u, d, userData;
    (split; [exact Htu|]); right; exists b;
    (split; [exact Htd|]); (split; [exact Hb|]); rewrite Htr in Hcm.
  - left. exists creply. split; [exact Hcm|].
    simpl; rewrite <- ?app_assoc; reflexivity.
  - right. exists e. split; [exact Hcm|].
    simpl; rewrite <- ?app_assoc; reflexivity.
Qed.

Lemma forOf_ok {A} (Inv : State -> Prop) (f : A -> M unit) (l : list A) :
  (forall a s, Inv s -> fst (f a s) = Ok tt /\ Inv (snd (f a s))) ->
  forall s, Inv s ->
    fst (forOf l f s) = Ok tt /\ Inv (snd (forOf l f s)).
Proof.
  intros Hf; induction l as [|a l IH]; intros s Hs; simpl.
  - now split.
  - unfold bind. destruct (Hf a s Hs) as [Hr Hi].
    destruct (f a s) as [[[]|e] s1]; simpl in *; [|discriminate].
    now apply IH.
Qed.

Lemma provisioning_loop (colls : list string) (s : State) :
  statusCommandsAnswer drv -> db (mgr s) <> None ->
  fst (forOf colls (ensurePreImageEnabled drv) s) = Ok tt /\
  mgr (snd (forOf colls (ensurePreImageEnabled drv) s)) = mgr s.
Proof.
  intros Hans Hdb. split.
  - apply (forOf_ok (fun st => db (mgr st) <> None)); [|exact Hdb].
    intros c st Hst. split.
    + now apply ensurePreImageEnabled_outcomes.
    + now rewrite (frame_ensurePreImageEnabled drv c st).
  - apply (steps_forOf sameConfig sameConfig_refl sameConfig_trans).
    apply frame_ensurePreImageEnabled.
Qed.

Lemma initialize_connected (o : Options) (s : State) (u : string)
      (colls : list string) :
  uriMissing o = false -> collectionsMissing o = false ->
  uri o = Some u -> opt_collections o = Some colls ->
  drv_construct drv u = Ok tt -> drv_connect drv (trace s) u = Ok tt ->
  initialize drv o s =
  forOf colls (ensurePreImageEnabled drv) (connected o u colls s).
Proof.
  intros Hu Hc Huri Hcolls Hnew Hconn.
  unfold initialize. rewrite Hu, Hc, Huri, Hcolls.
  unfold bind, liftR, setMgr, connect, log, emitEvent, record, ret.
  rewrite Hnew; simpl. rewrite Hconn; simpl.
  assert (Hst : forall a b : State, a = b ->
            forOf colls (ensurePreImageEnabled drv) a =
            forOf colls (ensurePreImageEnabled drv) b) by (intros; now subst).
  unfold connected, configure.
  destruct (opt_auditCollection o) as [a|], (opt_transform o) as [f|]; simpl;
    try destruct (a =? "")%string; simpl; apply Hst;
    rewrite <- app_assoc; reflexivity.
Qed.

Lemma initialize_config_error (o : Options) (s : State) :
  (uriMissing o = true ->
     initialize drv o s = (Throw (Error "Mongo URI is required"), s)) /\
  (uriMissing o = false -> collectionsMissing o = true ->
     initialize drv o s = (Throw (Error "Collections to audit are required"), s)).
Proof.
  unfold initialize. split.
  - now intros ->.
  - now intros -> ->.
Qed.

Lemma initialize_connect_failure (o : Options) (s : State) (u : string) (e : exn) :
  uriMissing o = false -> collectionsMissing o = false ->
  uri o = Some u ->
  drv_construct drv u = Ok tt -> drv_connect drv (trace s) u = Throw e ->
  fst (initialize drv o s) = Throw e /\
  db (mgr (snd (initialize drv o s))) = db (mgr s).
Proof.
  intros Hu Hc Huri Hnew Hconn.
  unfold initialize. rewrite Hu, Hc, Huri.
  unfold bind, liftR, setMgr, connect, record.
  rewrite Hnew; simpl. rewrite Hconn; simpl. now split.
Qed.

Lemma valid_options (o : Options) :
  uriMissing o = false -> collectionsMissing o = false ->
  exists u colls, uri o = Some u /\ opt_collections o = Some colls /\ colls <> [].
Proof.
  unfold uriMissing, collectionsMissing.
  destruct (uri o) as [u|]; [|discriminate].
  destruct (opt_collections o) as [[|c l]|]; try discriminate.
  intros _ _. exists u, (c :: l). repeat split. discriminate.
Qed.

Lemma initialize_ok (o : Options) (s : State) :
  uriMissing o = false -> collectionsMissing o = false ->
  connects drv o -> statusCommandsAnswer drv ->
  fst (initialize drv o s) = Ok tt /\
  exists u colls,
    uri o = Some u /\ opt_collections o = Some colls /\
    mgr (snd (initialize drv o s)) = configure o u colls (mgr s).
Proof.
  intros Hu Hc Hconn Hans.
  destruct (valid_options o Hu Hc) as (u & colls & Huri & Hcolls & _).
  destruct (Hconn u Huri) as [Hnew Hcon].
  rewrite (initialize_connected o s u colls Hu Hc Huri Hcolls Hnew (Hcon _)).
  destruct (provisioning_loop colls (connected o u colls s) Hans) as [Hr Hm].
  { simpl. discriminate. }
  split; [exact Hr|]. exists u, colls. now rewrite Hm.
Qed.

End Provisioner.

(** ** ChangeSubscriber *)

Section Subscriber.

Lemma forOf_watch (l : list string) (s : State) :
  fst (forOf l watch s) = Ok tt /\
  mgr (snd (forOf l watch s)) = mgr s /\
  observers (snd (forOf l watch s)) = observers s /\
  streams (snd (forOf l watch s)) = streams s ++ l /\
  trace (snd (forOf l watch s)) = trace s ++ map EWatch l.
Proof.
  revert s; induction l as [|c l IH]; intros s; simpl.
  - now rewrite !app_nil_r.
  - unfold bind, watch at 1.
    match goal with |- context [forOf l watch ?st] => destruct (IH st)
        as (Hr & Hm & Ho & Hs & Ht) end.
    simpl in *. rewrite Hr, Hm, Ho, Hs, Ht, <- !app_assoc. now repeat split.
Qed.

Lemma start_opens (s : State) :
  db (mgr s) <> None ->
  fst (start s) = Ok tt /\
  mgr (snd (start s)) = mgr s /\
  streams (snd (start s)) = streams s ++ collections (mgr s) /\
  trace (snd (start s)) =
    trace s ++ map EWatch (collections (mgr s)) ++ [ELog Started].
Proof.
  intros Hdb. unfold start, bind, getMgr.
  destruct (db (mgr s)); [|contradiction].
  destruct (forOf_watch (collections (mgr s)) s) as (Hr & Hm & Ho & Hs & Ht).
  destruct (forOf (collections (mgr s)) watch s) as [[[]|e] s1];
    simpl in *; [|discriminate].
  unfold log, emitEvent, record; simpl.
  rewrite Hm, Hs, Ht, <- app_assoc. now repeat split.
Qed.

Lemma start_unconnected (s : State) :
  db (mgr s) = None ->
  start s = (Throw (Error "Call initialize() first"), s).
Proof. intros Hdb. unfold start, bind, getMgr. now rewrite Hdb. Qed.

End Subscriber.

(** ** Initialization and start *)

Section Orchestrator.

Variable drv : Driver.

(** C4, as the code has it.  [initialize] throws its own error, before it
    has touched the driver or any field, when the uri is missing or empty
    and when the collection list is missing or empty; in every other
    configuration it returns normally as long as the client connects and the
    status commands answer, and it passes on the failure of [connect]
    otherwise.  [start] throws exactly when [this.db] is unset, and
    [initialize] sets it as soon as [connect] has returned. *)
Theorem fatal_errors (o : Options) (s : State) :
  (uriMissing o = true ->
     initialize drv o s = (Throw (Error "Mongo URI is required"), s)) /\
  (uriMissing o = false -> collectionsMissing o = true ->
     initialize drv o s = (Throw (Error "Collections to audit are required"), s)) /\
  (uriMissing o = false -> collectionsMissing o = false ->
     connects drv o -> statusCommandsAnswer drv ->
     fst (initialize drv o s) = Ok tt) /\
  (forall u e,
     uriMissing o = false -> collectionsMissing o = false ->
     uri o = Some u -> drv_construct drv u = Ok tt ->
     drv_connect drv (trace s) u = Throw e ->
     fst (initialize drv o s) = Throw e /\
     db (mgr (snd (initialize drv o s))) = db (mgr s)) /\
  (forall u,
     uriMissing o = false -> collectionsMissing o = false ->
     uri o = Some u -> drv_construct drv u = Ok tt ->
     drv_connect drv (trace s) u = Ok tt ->
     db (mgr (snd (initialize drv o s))) <> None) /\
  (db (mgr s) = None ->
     start s = (Throw (Error "Call initialize() first"), s)) /\
  (db (mgr s) <> None -> fst (start s) = Ok tt).
Proof.
  destruct (initialize_config_error drv o s) as [Huri Hcolls].
  split; [exact Huri|]. split; [exact Hcolls|].
  split; [intros Hu Hc Hconn Hans; now apply initialize_ok|].
  split; [intros u e Hu Hc Hu' Hnew Hconn;
          now apply (initialize_connect_failure drv o s u e)|].
  split; [|split; [apply start_unconnected
                  | intros Hdb; now apply start_opens]].
  intros u Hu Hc Huri' Hnew Hconn.
  destruct (valid_options o Hu Hc) as (u' & colls & Hu' & Hcolls' & _).
  rewrite Huri' in Hu'. injection Hu' as <-.
  rewrite (initialize_connected drv o s u colls Hu Hc Huri' Hcolls' Hnew Hconn).
  rewrite (steps_forOf sameConfig sameConfig_refl sameConfig_trans colls
             (ensurePreImageEnabled drv)
             (frame_ensurePreImageEnabled drv) (connected o u colls s)).
  simpl. discriminate.
Qed.

End Orchestrator.

(** ** Notifications never run ahead of commits, over whole runs *)

Section Runs.

Variable drv : Driver.

Ltac quiet_prim :=
  let s := fresh "s" in
  intros s;
  cbv beta delta [emitEvent log warn newDate watch applyTransform setMgr
                  dbCommand connect insertOne bind thisDb];
  repeat match goal with
         | |- context [match ?x with _ => _ end] => destruct x
         | |- context [if ?x then _ else _] => destruct x
         end;
  first [ apply extends_refl
        | apply extends_record; reflexivity
        | eexists; split; [simpl; first [reflexivity
                                        | symmetry; apply app_nil_r]
                          | reflexivity] ].

Ltac quietly := steps_with (extends_refl quiet) (extends_trans quiet) quiet_prim.

Lemma quiet_createAuditDoc change c :
  steps (extends quiet) (createAuditDoc drv change c).
Proof.
  intros s. apply (extends_weaken isTransformCall); [|apply createAuditDoc_calls].
  now intros [].
Qed.

Lemma quiet_ensurePreImageEnabled c :
  steps (extends quiet) (ensurePreImageEnabled drv c).
Proof.
  unfold ensurePreImageEnabled. quietly.
  destruct (negb (truthy _)); quietly.
  destruct (negb (truthy _)); quietly.
Qed.

Lemma quiet_initialize o : steps (extends quiet) (initialize drv o).
Proof.
  unfold initialize.
  destruct (uriMissing o); [quietly|].
  destruct (collectionsMissing o); [quietly|].
  quietly.
  destruct (negb (truthy _)); quietly.
  destruct (negb (truthy _)); quietly.
Qed.

Lemma quiet_start : steps (extends quiet) start.
Proof. unfold start. quietly. destruct (db _); quietly. Qed.

Lemma split_cases {A} (l1 : list A) (x : A) (l2 pre : list A) (y : A)
      (post : list A) :
  l1 ++ x :: l2 = pre ++ y :: post -> y <> x ->
  (exists post', l1 = pre ++ y :: post') \/
  (exists pre', pre = l1 ++ x :: pre' /\ l2 = pre' ++ y :: post).
Proof.
  revert pre; induction l1 as [|a l1 IH]; intros pre Heq Hxy.
  - destruct pre as [|b pre]; simpl in Heq; injection Heq as Hx Hl.
    + now subst.
    + subst. right. now exists pre.
  - destruct pre as [|b pre]; simpl in Heq; injection Heq as Ha Hl.
    + subst. left. now exists l1.
    + subst. destruct (IH pre Hl Hxy) as [[post' ->]|(pre' & -> & ->)].
      * left. now exists post'.
      * right. now exists pre'.
Qed.

Lemma committedFirst_extends tr d :
  committedFirst tr -> forallb quiet d = true -> committedFirst (tr ++ d).
Proof.
  intros Htr Hd pre o r post Heq.
  destruct (split_within tr d pre (ENotify o r) post Heq) as [post' Hpost].
  - now apply (no_notify_in quiet).
  - now apply (Htr pre o r post').
Qed.

Lemma committedFirst_commit tr calls dest r obs :
  committedFirst tr -> forallb isTransformCall calls = true ->
  committedFirst (tr ++ calls ++ EInsert dest r :: map (fun o => ENotify o r) obs).
Proof.
  intros Htr Hcalls pre o r' post Heq.
  rewrite app_assoc in Heq.
  destruct (split_cases _ _ _ _ _ _ Heq) as [[post' Hin]|(pre' & -> & Hin)].
  - discriminate.
  - destruct (split_within tr calls pre (ENotify o r') post' Hin) as [p Hp].
    + now apply (no_notify_in isTransformCall).
    + now apply (Htr pre o r' p).
  - assert (Hr : In (ENotify o r') (map (fun o => ENotify o r) obs))
      by (rewrite Hin; apply in_elt).
    apply in_map_iff in Hr. destruct Hr as (o' & Ho' & _).
    injection Ho' as _ <-. exists dest. apply in_elt.
Qed.

Lemma committedFirst_onChange c change s :
  committedFirst (trace s) ->
  committedFirst (trace (snd (onChange drv c change s))).
Proof.
  intros Hs.
  destruct (onChange_history drv c change s) as (calls & Hcalls & Hcases).
  assert (Hq : forallb quiet calls = true).
  { rewrite forallb_forall in *. intros e He.
    specialize (Hcalls e He). now destruct e. }
  destruct Hcases as [(e & _ & -> & _)
                     |[(r & s1 & e & _ & _ & _ & ->)
                      |(r & s1 & _ & _ & _ & _ & ->)]].
  - now apply committedFirst_extends.
  - apply committedFirst_extends; [exact Hs|].
    now rewrite forallb_app, Hq.
  - now apply committedFirst_commit.
Qed.

Lemma committedFirst_steps {A} (m : M A) s :
  steps (extends quiet) m -> committedFirst (trace s) ->
  committedFirst (trace (snd (m s))).
Proof.
  intros Hm Hs. destruct (Hm s) as (d & -> & Hd).
  now apply committedFirst_extends.
Qed.

Lemma committedFirst_runHandlers hs change s :
  committedFirst (trace s) ->
  committedFirst (trace (snd (runHandlers drv hs change s))).
Proof.
  revert s; induction hs as [|h hs IH]; intros s Hs; simpl; [exact Hs|].
  pose proof (committedFirst_onChange h change s Hs) as H1.
  destruct (onChange drv h change s) as [[[]|e] s1]; simpl in *.
  - now apply IH.
  - exact H1.
Qed.

Lemma committedFirst_perform a s :
  committedFirst (trace s) -> committedFirst (trace (perform drv a s)).
Proof.
  intros Hs. destruct a as [o| |c|o|coll change]; simpl.
  - apply committedFirst_steps; [apply quiet_initialize | exact Hs].
  - apply committedFirst_steps; [apply quiet_start | exact Hs].
  - apply committedFirst_steps; [apply quiet_ensurePreImageEnabled | exact Hs].
  - exact Hs.
  - unfold deliver, deliverAll. now apply committedFirst_runHandlers.
Qed.

(** Whatever callers and the database do to a fresh manager, in whatever
    order, no observer is ever handed a record that has not been inserted
    before. *)
Lemma run_committedFirst acts t0 :
  committedFirst (trace (run drv acts (initState t0))).
Proof.
  assert (H : forall s, committedFirst (trace s) ->
              committedFirst (trace (run drv acts s))).
  { induction acts as [|a acts IH]; intros s Hs; simpl; [exact Hs|].
    destruct a as [o| |c|o|coll change].
    - apply IH. now apply (committedFirst_perform (Initialize o)).
    - apply IH. now apply (committedFirst_perform Start).
    - apply IH. now apply (committedFirst_perform (Provision c)).
    - apply IH. now apply (committedFirst_perform (OnAudit o)).
    - pose proof (committedFirst_perform (Notification coll change) s Hs) as H1.
      simpl in H1. unfold deliver in H1.
      destruct (deliverAll drv coll change s) as [[[]|e] s1]; simpl in *.
      + now apply IH.
      + exact H1. }
  apply H. intros pre o r post Heq. destruct pre; discriminate.
Qed.

End Runs.

(** ** The sample server *)

Lemma server_connects p b o : connects (Sample.server p b) o.
Proof. intros u _. split; [reflexivity | intros h; reflexivity]. Qed.

Lemma looseProfile_enc (p : PrincipalProfile) : looseProfile (encProfile p) = true.
Proof.
  unfold looseProfile, encProfile; simpl.
  unfold loosePrivileges, looseRoles; simpl.
  rewrite !andb_true_iff. repeat split.
  - induction (inheritedPrivileges p); simpl; auto.
  - induction (privileges p); simpl; auto.
  - induction (roles p); simpl; auto.
  - induction (inheritedRoles p); simpl; auto.
Qed.

Lemma server_answers p b : statusCommandsAnswer (Sample.server p b).
Proof.
  split.
  - intros h. unfold repliesPrincipal. simpl.
    do 4 eexists. repeat split; reflexivity.
  - intros h u d. unfold repliesUserData. simpl.
    do 3 eexists. repeat split; try reflexivity.
    right. apply looseProfile_enc.
Qed.

(** C3, with the user registry out of reach.  The configuration is
    complete and the client has connected, yet the failure of [usersInfo]
    during provisioning leaves [ensurePreImageEnabled] and then [initialize]
    as a rejection: the two status commands are awaited outside the
    [try], while on the same path the failure of [collMod] is caught and
    [initialize] returns normally. *)
Theorem provisioning_failure_propagates :
  uriMissing (Sample.options None) = false /\
  collectionsMissing (Sample.options None) = false /\
  connects Sample.registryDown (Sample.options None) /\
  fst (ensurePreImageEnabled Sample.registryDown "orders"
         (connected (Sample.options None) "mongodb://localhost:27017/shop"
                    ["orders"] (initState 1000)))
  = Throw (DriverError "connection closed") /\
  fst (initialize Sample.registryDown (Sample.options None) (initState 1000))
  = Throw (DriverError "connection closed") /\
  countEvents isCollMod
    (trace (snd (initialize Sample.registryDown (Sample.options None)
                   (initState 1000)))) = 0%nat /\
  fst (initialize (Sample.server Sample.reader false) (Sample.options None)
         (initState 1000)) = Ok tt.
Proof.
  split; [reflexivity|]. split; [reflexivity|]. split.
  - intros u _. split; [reflexivity | intros h; reflexivity].
  - repeat split; vm_compute; reflexivity.
Qed.

(** With the sample server, a complete configuration initializes and a
    manager that was never initialized refuses to start. *)
Lemma fatal_errors_witness :
  fst (initialize (Sample.server Sample.reader false) (Sample.options None)
         (initState 1000)) = Ok tt /\
  start (initState 1000) =
    (Throw (Error "Call initialize() first"), initState 1000).
Proof.
  destruct (fatal_errors (Sample.server Sample.reader false)
              (Sample.options None) (initState 1000))
    as (_ & _ & Hok & _ & _ & Hstart & _).
  split.
  - exact (Hok eq_refl eq_refl
             (server_connects Sample.reader false (Sample.options None))
             (server_answers Sample.reader false)).
  - exact (Hstart eq_refl).
Defined.

(** A complete configuration against a server that refuses the connection:
    [initialize] throws; and after an [initialize] that failed while
    provisioning, [start] does not throw. *)
Lemma initialize_throws_on_valid_configuration :
  uriMissing (Sample.options None) = false /\
  collectionsMissing (Sample.options None) = false /\
  fst (initialize Sample.unreachable (Sample.options None) (initState 1000))
  = Throw (DriverError "connect ECONNREFUSED") /\
  (exists e,
     fst (initialize Sample.registryDown (Sample.options None) (initState 1000))
     = Throw e) /\
  fst (start (snd (initialize Sample.registryDown (Sample.options None)
                     (initState 1000)))) = Ok tt.
Proof.
  repeat split. eexists. reflexivity.
Qed.

(** C2, at the reader.  The permission check answers false for the reader,
    and provisioning [orders] on its behalf still sends [collMod] to the
    server, which refuses it. *)
Theorem ensurePreImageEnabled_ignores_permission :
  let drv := Sample.server Sample.reader false in
  let s := connected (Sample.options None) "mongodb://localhost:27017/shop"
                     ["orders"] (initState 1000) in
  canRunCollMod (encProfile Sample.reader) = Ok false /\
  fst (ensurePreImageEnabled drv "orders" s) = Ok tt /\
  trace (snd (ensurePreImageEnabled drv "orders" s)) =
    trace s ++
    [ECommand ConnectionStatus;
     ELog (ConnectedUser (JObj [("user", JStr "auditor"); ("db", JStr "admin")]));
     ECommand (UsersInfo (JStr "auditor") (JStr "admin"));
     ELog (Enabling "orders");
     ECommand (CollMod "orders");
     EWarn (CouldNotEnable "orders" "not authorized to execute command collMod")].
Proof. repeat split. Qed.

(** The scenario of the deleted order: one record goes to [audit_logs], with
    the prior state as [before] and [null] as [after], and the one observer
    is notified once, after the insert. *)
Lemma onChange_commit_then_notify_witness :
  let drv := Sample.server Sample.reader false in
  let s := Sample.running None in
  let r := {| collection := "orders"; documentId := JNum 7;
              operation := JStr "delete"; timestamp := 1002;
              before := JObj Sample.paid; after := JNull |} in
  trace (deliver drv "orders" (encChange Sample.deleteEvent) s) =
    trace s ++ [EInsert "audit_logs" r; ENotify 1%nat r] /\
  deliveriesTo 1%nat [EInsert "audit_logs" r; ENotify 1%nat r] = 1%nat.
Proof.
  intros drv s r.
  destruct (onChange_commit_then_notify drv "orders"
              (encChange Sample.deleteEvent) s)
    as (d & Htr & _ & Hcommit & _ & Hbuilt).
  assert (Hin : In (EInsert "audit_logs" r) d).
  { apply (Hbuilt r (snd (createAuditDoc drv (encChange Sample.deleteEvent)
                            "orders" s))); [reflexivity | discriminate | reflexivity]. }
  destruct (Hcommit _ _ Hin) as (_ & _ & (calls & _ & Hd) & Hcount).
  split; [reflexivity|].
  assert (Hdd : d = [EInsert "audit_logs" r; ENotify 1%nat r]).
  { apply (app_inv_head (trace s)). rewrite <- Htr. reflexivity. }
  rewrite <- Hdd. apply Hcount.
Defined.

(** * Further properties of the class *)

(** ** The permission check *)

Section ResolverMore.

Lemma existsb_map_names {A B} (f : B -> bool) (g : A -> B) (l : list A) :
  existsb (fun a => f (g a)) l = existsb f (map g l).
Proof. induction l as [|a l IH]; simpl; [reflexivity | now rewrite IH]. Qed.

Lemma canRunCollMod_names (p : PrincipalProfile) :
  canRunCollMod (encProfile p) =
  Ok (existsb grantsNames (map actions (inheritedPrivileges p)) ||
      existsb grantsNames (map actions (privileges p)) ||
      existsb adminName (map role (roles p)) ||
      existsb adminName (map role (inheritedRoles p))).
Proof.
  rewrite canRunCollMod_enc.
  now rewrite <- !(existsb_map_names grantsNames actions),
              <- !(existsb_map_names adminName role).
Qed.

(** The check never looks at the resource of a privilege nor at the
    database of a role: two profiles with the same action names and the same
    role names get the same answer. *)
Theorem canRunCollMod_ignores_scope (p p' : PrincipalProfile) :
  sameNames p p' ->
  canRunCollMod (encProfile p) = canRunCollMod (encProfile p').
Proof.
  intros (H1 & H2 & H3 & H4).
  now rewrite !canRunCollMod_names, H1, H2, H3, H4.
Qed.

(** [dbAdmin] on the payroll database counts like [dbAdmin] on the audited
    one. *)
Lemma canRunCollMod_ignores_scope_witness :
  canRunCollMod (encProfile Sample.elsewhere) = Ok true.
Proof.
  rewrite (canRunCollMod_ignores_scope Sample.elsewhere Sample.here).
  - reflexivity.
  - repeat split.
Defined.

Lemma existsb_incl {A} (f : A -> bool) (l l' : list A) :
  incl l l' -> existsb f l = true -> existsb f l' = true.
Proof.
  intros Hi. rewrite !existsb_exists. intros (a & Ha & Hf).
  exists a. split; [now apply Hi | exact Hf].
Qed.

(** Entries can only add permission: a profile that passes still passes
    with more privileges or roles, in any order. *)
Theorem canRunCollMod_monotone (p p' : PrincipalProfile) :
  included p p' ->
  canRunCollMod (encProfile p) = Ok true ->
  canRunCollMod (encProfile p') = Ok true.
Proof.
  intros (H1 & H2 & H3 & H4). rewrite !canRunCollMod_enc.
  intros H. injection H as H. f_equal.
  rewrite !orb_true_iff in *.
  destruct H as [[[H|H]|H]|H].
  - left; left; left. exact (existsb_incl _ _ _ H1 H).
  - left; left; right. exact (existsb_incl _ _ _ H2 H).
  - left; right. exact (existsb_incl _ _ _ H3 H).
  - right. exact (existsb_incl _ _ _ H4 H).
Qed.

Lemma canRunCollMod_monotone_witness :
  canRunCollMod
    (encProfile {| user := "ops"; userDb := "admin"; privileges := [];
                   inheritedPrivileges := inheritedPrivileges Sample.reader;
                   roles := roles Sample.reader ++ roles Sample.owner;
                   inheritedRoles := [] |}) = Ok true.
Proof.
  apply (canRunCollMod_monotone Sample.owner).
  - repeat split; intros x Hx; try contradiction.
    apply in_or_app. now right.
  - reflexivity.
Defined.

(** Once a privilege grants the action the role fields are not looked at,
    and once an explicit role is administrative the inherited roles are not
    looked at: a later field that would make the check throw does no harm. *)
Theorem canRunCollMod_short_circuit (u : jsval) :
  truthy u = true ->
  loosePrivileges (fieldOf u "inheritedPrivileges") = true ->
  (existsb entryGrants (privEntries (fieldOf u "inheritedPrivileges")) = true
   \/
   loosePrivileges (fieldOf u "privileges") = true /\
   (existsb entryGrants (privEntries (fieldOf u "privileges")) = true
    \/
    looseRoles (fieldOf u "roles") = true /\
    existsb entryIsAdmin (listOrEmpty (fieldOf u "roles")) = true)) ->
  canRunCollMod u = Ok true.
Proof.
  intros Hu Hip Hcases.
  pose proof (truthy_readable u Hu) as Hn.
  unfold canRunCollMod. rewrite Hu; simpl.
  rewrite !(get_readable u _ Hn); simpl.
  rewrite (privilege_check_loose _ _ Hip); simpl.
  destruct (existsb entryGrants (privEntries (fieldOf u "inheritedPrivileges")));
    [reflexivity|]; simpl.
  destruct Hcases as [H|[Hp Hcases]]; [discriminate|].
  rewrite (privilege_check_loose _ _ Hp); simpl.
  destruct (existsb entryGrants (privEntries (fieldOf u "privileges")));
    [reflexivity|]; simpl.
  destruct Hcases as [H|[Hr Hadm]]; [discriminate|].
  rewrite (role_check_loose _ _ Hr), Hadm. reflexivity.
Qed.

(** The [roles] field of the sample is a number, which alone makes the check
    throw; behind a granting privilege it is never reached. *)
Lemma canRunCollMod_short_circuit_witness :
  canRunCollMod Sample.brokenRoles = Ok true /\
  canRunCollMod (JObj [("roles", JNum 5)])
  = Throw (TypeError "roles.some is not a function").
Proof.
  split; [|reflexivity].
  apply canRunCollMod_short_circuit.
  - reflexivity.
  - reflexivity.
  - right. split; [reflexivity|]. now left.
Defined.

Lemma some_loop_stops (f : jsval -> result bool) (g ok : jsval -> bool)
      (pre post : list jsval) (e : jsval) (x : exn) :
  (forall a, ok a = true -> f a = Ok (g a)) ->
  forallb ok pre = true -> existsb g pre = false ->
  f e = Throw x ->
  some_loop f (pre ++ e :: post) = Throw x.
Proof.
  intros Hf; induction pre as [|a pre IH]; simpl; intros Hok Hg He.
  - now rewrite He.
  - apply andb_true_iff in Hok. destruct Hok as [Ha Hpre].
    apply orb_false_iff in Hg. destruct Hg as [Hga Hgpre].
    rewrite (Hf a Ha), Hga; simpl. now apply IH.
Qed.

(** A [null] or [undefined] entry in the inherited privileges makes the
    check throw a TypeError, unless an entry before it already grants the
    action; the entries after it and the other fields do not matter. *)
Theorem canRunCollMod_null_entry
        (fs : list (string * jsval)) (pre post : list jsval) (e : jsval) :
  assoc "inheritedPrivileges" fs = JArr (pre ++ e :: post) ->
  nullish e = true ->
  forallb loosePrivilege pre = true ->
  existsb entryGrants pre = false ->
  exists msg, canRunCollMod (JObj fs) = Throw (TypeError msg).
Proof.
  intros Hip He Hpre Hg. unfold canRunCollMod; simpl.
  rewrite Hip; simpl.
  assert (Hthrow : exists msg, grantsCollMod e = Throw (TypeError msg)).
  { destruct e; try discriminate; eexists; reflexivity. }
  destruct Hthrow as [msg Hthrow]. exists msg.
  now rewrite (some_loop_stops grantsCollMod entryGrants loosePrivilege
                 pre post e _ grantsCollMod_loose Hpre Hg Hthrow).
Qed.

Lemma canRunCollMod_null_entry_witness :
  exists msg, canRunCollMod Sample.nullEntry = Throw (TypeError msg).
Proof.
  apply (canRunCollMod_null_entry _
           [JObj [("actions", JArr [JStr "find"])]]
           [JObj [("actions", JArr [JStr "collMod"])]] JNull);
    reflexivity.
Defined.

End ResolverMore.

(** ** Provisioning *)

Section ProvisionerMore.

Variable drv : Driver.

(** On a connected manager the method computes its straight-line form. *)
Lemma ensurePreImageEnabled_run (c : string) (s : State) :
  db (mgr s) <> None ->
  ensurePreImageEnabled drv c s = provisionRun drv c s.
Proof.
  intros Hdb. unfold ensurePreImageEnabled, provisionRun, principalOf.
  unfold bind at 1. rewrite (dbCommand_run drv _ _ Hdb).
  destruct (drv_command drv (trace s) ConnectionStatus) as [reply|e];
    [|reflexivity].
  unfold bind at 1, liftR at 1. unfold rbind at 1 2.
  destruct (get reply "authInfo") as [authInfo|e]; [|reflexivity].
  unfold bind at 1, liftR at 1. unfold rbind at 1.
  destruct (get authInfo "authenticatedUsers") as [users|e]; [|reflexivity].
  unfold bind at 1, liftR at 1.
  destruct (get0 users) as [userInfo|e]; [|reflexivity].
  unfold bind at 1, log at 1, emitEvent at 1.
  destruct (truthy userInfo) eqn:Htu; unfold negb; cbv beta iota zeta;
    [|reflexivity].
  unfold bind at 1, liftR at 1. rewrite (get_truthy _ _ Htu).
  unfold bind at 1, liftR at 1. rewrite (get_truthy _ _ Htu).
  set (s2 := record (ELog (ConnectedUser userInfo))
                    (record (ECommand ConnectionStatus) s)).
  assert (Hdb2 : db (mgr s2) <> None) by exact Hdb.
  unfold bind at 1. rewrite (dbCommand_run drv _ _ Hdb2).
  unfold userDataOf.
  destruct (drv_command drv (trace s2) _) as [ureply|e]; [|reflexivity].
  unfold bind at 1, liftR at 1. unfold rbind at 1 2.
  destruct (get ureply "users") as [uusers|e]; [|reflexivity].
  unfold bind at 1, liftR at 1.
  destruct (get0 uusers) as [userData|e]; [|reflexivity].
  destruct (truthy userData) eqn:Htd; unfold negb; cbv beta iota zeta;
    [|reflexivity].
  unfold bind at 1, liftR at 1.
  destruct (canRunCollMod userData) as [b|e]; [|reflexivity].
  set (s3 := record (ECommand (UsersInfo _ _)) s2).
  assert (Hdb3 : db (mgr (record (ELog (Enabling c)) s3)) <> None) by exact Hdb.
  unfold tryCatch, bind, log, warn, emitEvent.
  rewrite (dbCommand_run drv _ _ Hdb3).
  now destruct (drv_command drv _ (CollMod c)).
Qed.

Lemma ensurePreImageEnabled_unconnected (c : string) (s : State) :
  db (mgr s) = None ->
  ensurePreImageEnabled drv c s
  = (Throw (TypeError "Cannot read properties of null"), s).
Proof.
  intros Hdb. unfold ensurePreImageEnabled, dbCommand.
  unfold bind, thisDb. now rewrite Hdb.
Qed.

Lemma countEvents_app p d1 d2 :
  countEvents p (d1 ++ d2) = (countEvents p d1 + countEvents p d2)%nat.
Proof. unfold countEvents. now rewrite filter_app, length_app. Qed.

(** What a provisioning attempt can and cannot do, for any server and any
    replies: it leaves the configuration, the open streams, the observers
    and the clock alone; it sends at most one [connectionStatus], one
    [usersInfo] and one [collMod], the last on the collection it was called
    for; apart from log lines it does nothing else, so it never connects,
    watches, inserts or notifies; and on a manager that is not connected it
    throws a TypeError before sending anything. *)
Theorem ensurePreImageEnabled_effects (c : string) (s : State) :
  sameManager s (snd (ensurePreImageEnabled drv c s)) /\
  now (snd (ensurePreImageEnabled drv c s)) = now s /\
  (exists d,
      trace (snd (ensurePreImageEnabled drv c s)) = trace s ++ d /\
      forallb (provisionEvent c) d = true /\
      (countEvents isConnectionStatus d <= 1)%nat /\
      (countEvents isUsersInfo d <= 1)%nat /\
      (countEvents isCollMod d <= 1)%nat) /\
  (db (mgr s) = None ->
     ensurePreImageEnabled drv c s
     = (Throw (TypeError "Cannot read properties of null"), s)).
Proof.
  destruct (db (mgr s)) as [h|] eqn:Hdb.
  - assert (Hset : db (mgr s) <> None) by (rewrite Hdb; discriminate).
    rewrite (ensurePreImageEnabled_run c s Hset). unfold provisionRun.
    destruct (rbind (drv_command drv (trace s) ConnectionStatus) principalOf)
      as [ui|e]; [destruct (truthy ui)|];
      [destruct (rbind (drv_command drv _ (UsersInfo _ _)) userDataOf)
         as [ud|e1]; [destruct (truthy ud)|];
         [destruct (canRunCollMod ud) as [b|e2];
            [destruct (drv_command drv _ (CollMod c)) as [r|e3]|]|..]|..];
      (split; [repeat split|]; split; [reflexivity|];
       split; [|discriminate];
       eexists; split;
       [ simpl; rewrite <- ?app_assoc; simpl; reflexivity
       | unfold countEvents; simpl; rewrite ?String.eqb_refl; simpl;
         repeat split; lia ]).
  - rewrite (ensurePreImageEnabled_unconnected c s Hdb); simpl.
    split; [repeat split|]. split; [reflexivity|]. split; [|reflexivity].
    exists []. rewrite app_nil_r. repeat split; unfold countEvents; simpl; lia.
Qed.

(** With nobody logged in, [authenticatedUsers] being empty, provisioning
    asks for the connection status, warns and returns: the registry is not
    asked and [collMod] is not sent. *)
Theorem ensurePreImageEnabled_no_principal
        (c : string) (s : State) (userInfo : jsval) :
  db (mgr s) <> None ->
  rbind (drv_command drv (trace s) ConnectionStatus) principalOf = Ok userInfo ->
  truthy userInfo = false ->
  fst (ensurePreImageEnabled drv c s) = Ok tt /\
  trace (snd (ensurePreImageEnabled drv c s)) =
    trace s ++ [ECommand ConnectionStatus; ELog (ConnectedUser userInfo);
                EWarn NoAuthenticatedUser].
Proof.
  intros Hdb Hcs Hui. rewrite (ensurePreImageEnabled_run c s Hdb).
  unfold provisionRun. rewrite Hcs, Hui; simpl.
  now rewrite <- !app_assoc.
Qed.

(** When the registry has no entry for the logged-in user, provisioning
    warns and returns without sending [collMod]. *)
Theorem ensurePreImageEnabled_user_not_found
        (c : string) (s : State) (userInfo userData : jsval) :
  db (mgr s) <> None ->
  rbind (drv_command drv (trace s) ConnectionStatus) principalOf = Ok userInfo ->
  truthy userInfo = true ->
  let u := fieldOf userInfo "user" in
  let d := fieldOf userInfo "db" in
  rbind (drv_command drv
           (trace s ++ [ECommand ConnectionStatus; ELog (ConnectedUser userInfo)])
           (UsersInfo u d)) userDataOf = Ok userData ->
  truthy userData = false ->
  fst (ensurePreImageEnabled drv c s) = Ok tt /\
  trace (snd (ensurePreImageEnabled drv c s)) =
    trace s ++ [ECommand ConnectionStatus; ELog (ConnectedUser userInfo);
                ECommand (UsersInfo u d); EWarn (UserNotFound u d)].
Proof.
  intros Hdb Hcs Hui u d Hreg Hud. rewrite (ensurePreImageEnabled_run c s Hdb).
  unfold provisionRun. rewrite Hcs, Hui; simpl.
  rewrite <- app_assoc; simpl. fold u d. rewrite Hreg, Hud; simpl.
  now rewrite <- !app_assoc.
Qed.

(** The answer of the permission check is not used, but its failure is: when
    the check throws on the registry entry, provisioning throws the same
    error and [collMod] is not sent. *)
Theorem ensurePreImageEnabled_check_throws
        (c : string) (s : State) (userInfo userData : jsval) (e : exn) :
  db (mgr s) <> None ->
  rbind (drv_command drv (trace s) ConnectionStatus) principalOf = Ok userInfo ->
  truthy userInfo = true ->
  let u := fieldOf userInfo "user" in
  let d := fieldOf userInfo "db" in
  rbind (drv_command drv
           (trace s ++ [ECommand ConnectionStatus; ELog (ConnectedUser userInfo)])
           (UsersInfo u d)) userDataOf = Ok userData ->
  truthy userData = true ->
  canRunCollMod userData = Throw e ->
  fst (ensurePreImageEnabled drv c s) = Throw e /\
  trace (snd (ensurePreImageEnabled drv c s)) =
    trace s ++ [ECommand ConnectionStatus; ELog (ConnectedUser userInfo);
                ECommand (UsersInfo u d)].
Proof.
  intros Hdb Hcs Hui u d Hreg Hud He.
  rewrite (ensurePreImageEnabled_run c s Hdb).
  unfold provisionRun. rewrite Hcs, Hui; simpl.
  rewrite <- app_assoc; simpl. fold u d. rewrite Hreg, Hud, He; simpl.
  now rewrite <- !app_assoc.
Qed.

End ProvisionerMore.

Lemma ensurePreImageEnabled_no_principal_witness :
  let drv := Sample.serverWith Sample.anonymousReply Sample.noUsers in
  fst (ensurePreImageEnabled drv "orders" Sample.connectedState) = Ok tt /\
  countEvents isCollMod
    (trace (snd (ensurePreImageEnabled drv "orders" Sample.connectedState)))
  = 0%nat.
Proof.
  intros drv.
  destruct (ensurePreImageEnabled_no_principal drv "orders"
              Sample.connectedState JUndefined) as [Hr Ht].
  - discriminate.
  - reflexivity.
  - reflexivity.
  - split; [exact Hr | rewrite Ht; reflexivity].
Defined.

Lemma ensurePreImageEnabled_user_not_found_witness :
  let drv := Sample.serverWith Sample.statusReply Sample.noUsers in
  fst (ensurePreImageEnabled drv "orders" Sample.connectedState) = Ok tt /\
  countEvents isCollMod
    (trace (snd (ensurePreImageEnabled drv "orders" Sample.connectedState)))
  = 0%nat.
Proof.
  intros drv.
  destruct (ensurePreImageEnabled_user_not_found drv "orders"
              Sample.connectedState
              (JObj [("user", JStr "auditor"); ("db", JStr "admin")])
              JUndefined) as [Hr Ht].
  - discriminate.
  - reflexivity.
  - reflexivity.
  - reflexivity.
  - reflexivity.
  - split; [exact Hr | rewrite Ht; reflexivity].
Defined.

Lemma ensurePreImageEnabled_check_throws_witness :
  let drv := Sample.serverWith Sample.statusReply Sample.oddUsers in
  fst (ensurePreImageEnabled drv "orders" Sample.connectedState)
  = Throw (TypeError "roles.some is not a function") /\
  countEvents isCollMod
    (trace (snd (ensurePreImageEnabled drv "orders" Sample.connectedState)))
  = 0%nat.
Proof.
  intros drv.
  destruct (ensurePreImageEnabled_check_throws drv "orders"
              Sample.connectedState
              (JObj [("user", JStr "auditor"); ("db", JStr "admin")])
              (JObj [("user", JStr "auditor"); ("roles", JNum 5)])
              (TypeError "roles.some is not a function")) as [Hr Ht].
  - discriminate.
  - reflexivity.
  - reflexivity.
  - reflexivity.
  - reflexivity.
  - reflexivity.
  - split; [exact Hr | rewrite Ht; reflexivity].
Defined.

(** ** Initialization *)

Section OrchestratorMore.

Variable drv : Driver.

Lemma sameManager_refl s : sameManager s s.
Proof. repeat split. Qed.

Lemma sameManager_trans a b c :
  sameManager a b -> sameManager b c -> sameManager a c.
Proof. intros (A1 & A2 & A3) (B1 & B2 & B3). repeat split; congruence. Qed.

Lemma provision_sameManager (c : string) :
  steps sameManager (ensurePreImageEnabled drv c).
Proof.
  intros s. split; [apply frame_ensurePreImageEnabled|].
  destruct (db (mgr s)) as [h|] eqn:Hdb.
  - assert (Hset : db (mgr s) <> None) by (rewrite Hdb; discriminate).
    rewrite (ensurePreImageEnabled_run drv c s Hset). unfold provisionRun.
    destruct (rbind (drv_command drv (trace s) ConnectionStatus) principalOf)
      as [ui|e]; [destruct (truthy ui)|];
      [destruct (rbind (drv_command drv _ (UsersInfo _ _)) userDataOf)
         as [ud|e1]; [destruct (truthy ud)|];
         [destruct (canRunCollMod ud) as [b|e2];
            [destruct (drv_command drv _ (CollMod c)) as [r|e3]|]|..]|..];
      split; reflexivity.
  - rewrite (ensurePreImageEnabled_unconnected drv c s Hdb). now split.
Qed.

Lemma initialize_after_connect
      (o : Options) (s : State) (u : string) (colls : list string) :
  uriMissing o = false -> collectionsMissing o = false ->
  uri o = Some u -> opt_collections o = Some colls ->
  drv_construct drv u = Ok tt -> drv_connect drv (trace s) u = Ok tt ->
  sameManager (connected o u colls s) (snd (initialize drv o s)).
Proof.
  intros Hu Hc Huri Hcolls Hnew Hconn.
  rewrite (initialize_connected drv o s u colls Hu Hc Huri Hcolls Hnew Hconn).
  apply (steps_forOf sameManager sameManager_refl sameManager_trans colls
           (ensurePreImageEnabled drv) provision_sameManager).
Qed.

(** [initialize] writes the configuration before it provisions: once
    [connect] has returned, the manager holds the new client and database
    handle, the new collection list, the new destination if one was given
    and is not empty, and the new transform if one was given, and it holds
    them whether or not provisioning then throws.  A destination or a
    transform that is left out keeps its earlier value.  Streams that are
    already open and registered observers are not touched. *)
Theorem initialize_stores_configuration
        (o : Options) (s : State) (u : string) (colls : list string) :
  uriMissing o = false -> collectionsMissing o = false ->
  uri o = Some u -> opt_collections o = Some colls ->
  drv_construct drv u = Ok tt -> drv_connect drv (trace s) u = Ok tt ->
  let s' := snd (initialize drv o s) in
  client (mgr s') = Some (MongoClient u) /\
  db (mgr s') = Some (DbOf (MongoClient u)) /\
  collections (mgr s') = colls /\
  (forall a, opt_auditCollection o = Some a -> a <> ""%string ->
             auditCollection (mgr s') = a) /\
  (opt_auditCollection o = None \/ opt_auditCollection o = Some ""%string ->
   auditCollection (mgr s') = auditCollection (mgr s)) /\
  (forall f, opt_transform o = Some f -> transform (mgr s') = Some f) /\
  (opt_transform o = None -> transform (mgr s') = transform (mgr s)) /\
  streams s' = streams s /\ observers s' = observers s.
Proof.
  intros Hu Hc Huri Hcolls Hnew Hconn s'.
  destruct (initialize_after_connect o s u colls Hu Hc Huri Hcolls Hnew Hconn)
    as (Hm & Hs & Ho).
  fold s' in Hm, Hs, Ho.
  rewrite Hm, Hs, Ho. unfold configure; simpl.
  repeat split.
  - intros a -> Ha. apply String.eqb_neq in Ha. now rewrite Ha.
  - intros [->| ->]; reflexivity.
  - now intros f ->.
  - now intros ->.
Qed.

(** When the client cannot be built nothing has happened; when [connect]
    fails the new client is already stored in [this.client], while the
    database handle, the collection list, the destination and the transform
    are the ones from before, and nothing was sent but the connection
    attempt. *)
Theorem initialize_connection_failure
        (o : Options) (s : State) (u : string) (e : exn) :
  uriMissing o = false -> collectionsMissing o = false ->
  uri o = Some u ->
  (drv_construct drv u = Throw e -> initialize drv o s = (Throw e, s)) /\
  (drv_construct drv u = Ok tt -> drv_connect drv (trace s) u = Throw e ->
   let s' := snd (initialize drv o s) in
   fst (initialize drv o s) = Throw e /\
   client (mgr s') = Some (MongoClient u) /\
   db (mgr s') = db (mgr s) /\
   collections (mgr s') = collections (mgr s) /\
   auditCollection (mgr s') = auditCollection (mgr s) /\
   transform (mgr s') = transform (mgr s) /\
   streams s' = streams s /\ observers s' = observers s /\
   trace s' = trace s ++ [EConnect u]).
Proof.
  intros Hu Hc Huri. unfold initialize. rewrite Hu, Hc, Huri.
  unfold bind, liftR, setMgr, connect, record. split.
  - now intros ->.
  - intros Hnew Hconn. rewrite Hnew; simpl. rewrite Hconn; simpl.
    repeat split.
Qed.

End OrchestratorMore.

Lemma initialize_stores_configuration_witness :
  let s' := snd (initialize Sample.registryDown (Sample.options None)
                   (initState 1000)) in
  (exists e, fst (initialize Sample.registryDown (Sample.options None)
                    (initState 1000)) = Throw e) /\
  collections (mgr s') = ["orders"] /\
  auditCollection (mgr s') = "audit_logs"%string.
Proof.
  intros s'.
  destruct (initialize_stores_configuration Sample.registryDown
              (Sample.options None) (initState 1000)
              "mongodb://localhost:27017/shop" ["orders"]
              eq_refl eq_refl eq_refl eq_refl eq_refl eq_refl)
    as (_ & _ & Hcolls & _ & Hdest & _).
  split; [eexists; reflexivity|]. split; [exact Hcolls|].
  fold s' in Hdest. rewrite Hdest; [reflexivity | now left].
Defined.

Lemma initialize_connection_failure_witness :
  let s' := snd (initialize Sample.unreachable (Sample.options None)
                   (initState 1000)) in
  client (mgr s') = Some (MongoClient "mongodb://localhost:27017/shop") /\
  db (mgr s') = None.
Proof.
  intros s'.
  destruct (initialize_connection_failure Sample.unreachable
              (Sample.options None) (initState 1000)
              "mongodb://localhost:27017/shop"
              (DriverError "connect ECONNREFUSED") eq_refl eq_refl eq_refl)
    as [_ H].
  destruct (H eq_refl eq_refl) as (_ & Hc & Hd & _).
  split; [exact Hc | exact Hd].
Defined.

(** ** Commands sent while initializing, and the feeds [start] opens *)

Section Counting.

Variable drv : Driver.

Lemma provision_counts (c : string) (s : State) :
  statusCommandsAnswer drv -> db (mgr s) <> None ->
  fst (ensurePreImageEnabled drv c s) = Ok tt /\
  exists d,
    trace (snd (ensurePreImageEnabled drv c s)) = trace s ++ d /\
    countEvents isConnectionStatus d = 1%nat /\
    (countEvents isCollMod d <= 1)%nat /\
    countEvents isInsert d = 0%nat.
Proof.
  intros Hans Hdb.
  destruct (ensurePreImageEnabled_outcomes drv c s Hans Hdb)
    as (Hok & ui & [[_ Ht]|(u & d & ud & _ & [[_ Ht]|(b & _ & _ & Hcm)])]).
  - split; [exact Hok|]. eexists. split; [exact Ht|]. repeat split.
    unfold countEvents; simpl; lia.
  - split; [exact Hok|]. eexists. split; [exact Ht|]. repeat split.
    unfold countEvents; simpl; lia.
  - split; [exact Hok|].
    destruct Hcm as [(reply & _ & Ht)|(e & _ & Ht)];
      (eexists; split; [exact Ht|]; repeat split;
       unfold countEvents; simpl; lia).
Qed.

Lemma provision_loop_counts (l : list string) (s : State) :
  statusCommandsAnswer drv -> db (mgr s) <> None ->
  fst (forOf l (ensurePreImageEnabled drv) s) = Ok tt /\
  exists d,
    trace (snd (forOf l (ensurePreImageEnabled drv) s)) = trace s ++ d /\
    countEvents isConnectionStatus d = List.length l /\
    (countEvents isCollMod d <= List.length l)%nat /\
    countEvents isInsert d = 0%nat.
Proof.
  intros Hans. revert s. induction l as [|c l IH]; intros s Hdb; simpl.
  - split; [reflexivity|]. exists []. rewrite app_nil_r.
    repeat split. unfold countEvents; simpl; lia.
  - unfold bind.
    destruct (provision_counts c s Hans Hdb) as (Hok & d1 & Ht1 & C1 & M1 & I1).
    pose proof (frame_ensurePreImageEnabled drv c s) as Hm.
    destruct (ensurePreImageEnabled drv c s) as [[[]|e] s1];
      simpl in *; [|discriminate].
    assert (Hdb1 : db (mgr s1) <> None) by (unfold sameConfig in Hm; now rewrite Hm).
    destruct (IH s1 Hdb1) as (Hok2 & d2 & Ht2 & C2 & M2 & I2).
    split; [exact Hok2|]. exists (d1 ++ d2).
    rewrite Ht2, Ht1, <- app_assoc, !countEvents_app.
    repeat split; lia.
Qed.

(** The status of the connection is asked again for every collection: with
    a server that connects and answers the status commands, [initialize]
    sends exactly as many [connectionStatus] commands as there are entries
    in the collection list, at most as many [collMod] commands, and writes
    nothing to any collection. *)
Theorem initialize_status_per_collection
        (o : Options) (s : State) (colls : list string) :
  uriMissing o = false -> collectionsMissing o = false ->
  opt_collections o = Some colls ->
  connects drv o -> statusCommandsAnswer drv ->
  exists d,
    trace (snd (initialize drv o s)) = trace s ++ d /\
    countEvents isConnectionStatus d = List.length colls /\
    (countEvents isCollMod d <= List.length colls)%nat /\
    countEvents isInsert d = 0%nat.
Proof.
  intros Hu Hc Hcolls Hconn Hans.
  destruct (valid_options o Hu Hc) as (u & colls' & Huri & Hcolls' & _).
  rewrite Hcolls in Hcolls'. injection Hcolls' as <-.
  destruct (Hconn u Huri) as [Hnew Hcon].
  rewrite (initialize_connected drv o s u colls Hu Hc Huri Hcolls Hnew (Hcon _)).
  destruct (provision_loop_counts colls (connected o u colls s) Hans)
    as (_ & d & Ht & C & M & I).
  { simpl. discriminate. }
  exists ([EConnect u; ELog (Initialized colls)] ++ d).
  rewrite Ht. simpl trace. rewrite <- app_assoc, !countEvents_app.
  repeat split; unfold countEvents at 1; simpl; lia.
Qed.

(** On a connected manager [start] opens one feed per entry of the
    collection list, in the order of the list and without looking for
    duplicates, sends no command, and touches neither the configuration nor
    the observers; it does not check whether feeds are open already, so a
    second [start] opens every feed once more. *)
Theorem start_opens_one_feed_per_entry (s : State) :
  db (mgr s) <> None ->
  let s1 := snd (start s) in
  fst (start s) = Ok tt /\
  mgr s1 = mgr s /\ observers s1 = observers s /\
  streams s1 = streams s ++ collections (mgr s) /\
  trace s1 = trace s ++ map EWatch (collections (mgr s)) ++ [ELog Started] /\
  fst (start s1) = Ok tt /\
  streams (snd (start s1)) =
    streams s ++ collections (mgr s) ++ collections (mgr s).
Proof.
  intros Hdb s1.
  destruct (start_opens s Hdb) as (Hr & Hm & Hs & Ht). fold s1 in Hm, Hs, Ht.
  assert (Ho : observers s1 = observers s).
  { unfold s1, start, bind, getMgr.
    destruct (db (mgr s)); [|contradiction].
    destruct (forOf_watch (collections (mgr s)) s) as (Hr' & _ & Ho' & _).
    destruct (forOf (collections (mgr s)) watch s) as [[[]|e] s2];
      simpl in *; [exact Ho' | discriminate]. }
  assert (Hdb1 : db (mgr s1) <> None) by now rewrite Hm.
  destruct (start_opens s1 Hdb1) as (Hr1 & _ & Hs1 & _).
  repeat split; auto.
  now rewrite Hs1, Hs, Hm, <- app_assoc.
Qed.

End Counting.

Lemma initialize_status_per_collection_witness :
  exists d,
    trace (snd (initialize (Sample.server Sample.reader false)
                  (Sample.options None) (initState 1000))) = [] ++ d /\
    countEvents isConnectionStatus d = 1%nat.
Proof.
  destruct (initialize_status_per_collection (Sample.server Sample.reader false)
              (Sample.options None) (initState 1000) ["orders"]
              eq_refl eq_refl eq_refl
              (server_connects Sample.reader false (Sample.options None))
              (server_answers Sample.reader false))
    as (d & Ht & Hc & _).
  exists d. split; [exact Ht | exact Hc].
Defined.

Lemma start_opens_one_feed_per_entry_witness :
  streams (snd (start (snd (start Sample.connectedState))))
  = ["orders"; "orders"].
Proof.
  destruct (start_opens_one_feed_per_entry Sample.connectedState)
    as (_ & _ & _ & _ & _ & _ & H).
  - discriminate.
  - exact H.
Defined.

(** ** The listener *)

Section ListenerMore.

Variable drv : Driver.

Lemma count_silent p (d : list event) :
  (forall e, silent e = true -> p e = false) ->
  forallb silent d = true -> countEvents p d = 0%nat.
Proof.
  intros Hp. unfold countEvents.
  induction d as [|e d IH]; simpl; [reflexivity|].
  rewrite andb_true_iff. intros [He Hd]. rewrite (Hp e He). now apply IH.
Qed.

Lemma deliveries_silent o (d : list event) :
  forallb silent d = true -> deliveriesTo o d = 0%nat.
Proof.
  unfold deliveriesTo. induction d as [|e d IH]; simpl; [reflexivity|].
  rewrite andb_true_iff. intros [He Hd]. destruct e; try (now apply IH).
  discriminate.
Qed.

Lemma calls_silent (d : list event) :
  forallb isTransformCall d = true -> forallb silent d = true.
Proof.
  rewrite !forallb_forall. intros H e He. specialize (H e He). now destruct e.
Qed.

Lemma applyTransform_step (x : jsval) (s : State) :
  sameManager s (snd (applyTransform x s)) /\
  now (snd (applyTransform x s)) = now s /\
  exists calls,
    trace (snd (applyTransform x s)) = trace s ++ calls /\
    forallb isTransformCall calls = true /\
    (List.length calls <= 1)%nat /\
    (transform (mgr s) = None -> calls = []).
Proof.
  unfold applyTransform.
  destruct (truthy x); [destruct (transform (mgr s)) as [f|]|]; simpl.
  - split; [repeat split|]. split; [reflexivity|].
    exists [ETransform x]. repeat split; simpl; try lia. discriminate.
  - split; [repeat split|]. split; [reflexivity|].
    exists []. rewrite app_nil_r. repeat split; simpl; lia.
  - split; [repeat split|]. split; [reflexivity|].
    exists []. rewrite app_nil_r. repeat split; simpl; lia.
Qed.

Lemma createAuditDoc_steps (change : jsval) (coll : string) (s : State) :
  sameManager s (snd (createAuditDoc drv change coll s)) /\
  now s <= now (snd (createAuditDoc drv change coll s)) /\
  (forall r, fst (createAuditDoc drv change coll s) = Ok r ->
             collection r = coll /\
             timestamp r = now (snd (createAuditDoc drv change coll s))) /\
  exists calls,
    trace (snd (createAuditDoc drv change coll s)) = trace s ++ calls /\
    forallb isTransformCall calls = true /\
    (List.length calls <= 2)%nat /\
    (transform (mgr s) = None -> calls = []).
Proof.
  destruct (createAuditDoc drv change coll s) as [res s'] eqn:Hrun; simpl.
  assert (Hstay : forall e : exn, (@Throw AuditRecord e, s) = (res, s') ->
    sameManager s s' /\ now s <= now s' /\
    (forall r, res = Ok r -> collection r = coll /\ timestamp r = now s') /\
    exists calls,
      trace s' = trace s ++ calls /\
      forallb isTransformCall calls = true /\
      (List.length calls <= 2)%nat /\
      (transform (mgr s) = None -> calls = [])).
  { intros e He. injection He as <- <-. split; [repeat split|]. split; [lia|].
    split; [discriminate|]. exists []. rewrite app_nil_r.
    repeat split; simpl; lia. }
  unfold createAuditDoc in Hrun.
  unfold bind at 1, liftR at 1 in Hrun.
  destruct (get change "operationType") as [op|e]; [|now apply (Hstay e)].
  unfold bind at 1, liftR at 1 in Hrun.
  destruct (get change "fullDocument") as [fd|e]; [|now apply (Hstay e)].
  unfold bind at 1, liftR at 1 in Hrun.
  destruct (get change "fullDocumentBeforeChange") as [fb|e];
    [|now apply (Hstay e)].
  unfold bind at 1, liftR at 1 in Hrun.
  destruct (get change "documentKey") as [dk|e]; [|now apply (Hstay e)].
  clear Hstay. unfold bind at 1 in Hrun.
  destruct (applyTransform_step (js_or fb JNull) s)
    as ((M1 & S1 & O1) & N1 & c1 & T1 & C1 & L1 & E1).
  destruct (applyTransform (js_or fb JNull) s) as [[tb|e] s1]; simpl in *.
  2:{ injection Hrun as <- <-.
      split; [repeat split; assumption|]. split; [lia|].
      split; [discriminate|]. exists c1. repeat split; auto; lia. }
  unfold bind at 1 in Hrun.
  destruct (applyTransform_step (js_or fd JNull) s1)
    as ((M2 & S2 & O2) & N2 & c2 & T2 & C2 & L2 & E2).
  assert (Hcalls : forall s2, trace s2 = trace s1 ++ c2 ->
            exists calls,
              trace s2 = trace s ++ calls /\
              forallb isTransformCall calls = true /\
              (List.length calls <= 2)%nat /\
              (transform (mgr s) = None -> calls = [])).
  { intros s2 Hs2. exists (c1 ++ c2).
    rewrite Hs2, T1, <- app_assoc, forallb_app, C1, C2, length_app.
    repeat split; try lia.
    intros Hn. rewrite (E1 Hn), E2; [reflexivity | now rewrite M1]. }
  destruct (applyTransform (js_or fd JNull) s1) as [[ta|e] s2]; simpl in *.
  2:{ injection Hrun as <- <-.
      split; [repeat split; (etransitivity; eassumption)|]. split; [lia|].
      split; [discriminate|]. now apply Hcalls. }
  unfold bind at 1, liftR at 1 in Hrun.
  destruct (get dk "_id") as [id|e]; simpl in Hrun.
  2:{ injection Hrun as <- <-.
      split; [repeat split; (etransitivity; eassumption)|]. split; [lia|].
      split; [discriminate|]. now apply Hcalls. }
  unfold bind, newDate, ret in Hrun; simpl in Hrun.
  injection Hrun as <- <-; simpl.
  split; [repeat split; (etransitivity; eassumption)|]. split; [lia|].
  split; [intros r Hr; injection Hr as <-; now split|].
  now apply Hcalls.
Qed.

(** Building a record is local, for any notification whatever its shape: no
    request goes to the database, the manager, its streams and its observers
    are untouched, the transform is called at most twice and not at all when
    none is configured, the clock does not go back, and a record that is
    returned carries the collection name it was built for and the clock
    reading taken at the end. *)
Theorem createAuditDoc_is_local (change : jsval) (coll : string) (s : State) :
  sameManager s (snd (createAuditDoc drv change coll s)) /\
  now s <= now (snd (createAuditDoc drv change coll s)) /\
  (forall r, fst (createAuditDoc drv change coll s) = Ok r ->
             collection r = coll /\
             timestamp r = now (snd (createAuditDoc drv change coll s))) /\
  exists calls,
    trace (snd (createAuditDoc drv change coll s)) = trace s ++ calls /\
    forallb isTransformCall calls = true /\
    (List.length calls <= 2)%nat /\
    (transform (mgr s) = None -> calls = []).
Proof. exact (createAuditDoc_steps change coll s). Qed.

End ListenerMore.

Section Feeds.

Variable drv : Driver.

Lemma runHandlers_extends ok (change : jsval) (hs : list string) (s : State) :
  (forall h st, In h hs ->
                extends ok st (snd (onChange drv h change st))) ->
  extends ok s (snd (runHandlers drv hs change s)) /\
  sameManager s (snd (runHandlers drv hs change s)).
Proof.
  intros Hh. split.
  - apply (steps_runHandlers (extends ok) (extends_refl ok) (extends_trans ok)).
    intros h Hin st. now apply Hh.
  - apply (steps_runHandlers sameManager sameManager_refl sameManager_trans).
    intros h _ st. split; [apply frame_onChange | apply feeds_onChange].
Qed.

(** When every write to the audit collection fails, handling a notification
    commits nothing and notifies nobody, whatever the notification, and the
    configuration, the open streams and the observers are as before; a
    listener whose record could be built rejects with the error of the
    write. *)
Theorem insert_failure_confined
        (coll : string) (change : jsval) (s : State) (e : exn) :
  (forall h dest r, drv_insertOne drv h dest r = Throw e) ->
  let s1 := deliver drv coll change s in
  sameManager s s1 /\
  (exists d,
      trace s1 = trace s ++ d /\
      countEvents isInsert d = 0%nat /\
      forall o, deliveriesTo o d = 0%nat) /\
  (forall h r s2,
      createAuditDoc drv change h s = (Ok r, s2) -> db (mgr s) <> None ->
      fst (onChange drv h change s) = Throw e).
Proof.
  intros Hins s1.
  destruct (runHandlers_extends silent change
              (filter (String.eqb coll) (streams s)) s) as [(d & Ht & Hd) Hm].
  - intros h st _.
    destruct (onChange_history drv h change st) as (calls & Hcalls & Hcases).
    pose proof (calls_silent calls Hcalls) as Hs.
    destruct Hcases as [(x & _ & Htr & _)
                       |[(r & s2 & x & _ & _ & _ & Htr)
                        |(r & s2 & _ & Hok & _)]].
    + exists calls. now split.
    + exists (calls ++ [EInsertFailed (auditCollection (mgr st)) r]).
      split; [exact Htr|]. now rewrite forallb_app, Hs.
    + rewrite Hins in Hok. discriminate.
  - split; [exact Hm|]. split.
    + exists d. split; [exact Ht|]. split.
      * apply count_silent; [|exact Hd].
        intros x Hx. unfold silent in Hx. apply andb_true_iff in Hx.
        destruct Hx as [Hx _]. now apply negb_true_iff in Hx.
      * intros o. now apply deliveries_silent.
    + intros h r s2 Hrun Hdb.
      destruct (onChange_history drv h change s) as (calls & _ & Hcases).
      destruct Hcases as [(x & _ & _ & [Hw|Hw])
                         |[(r' & s2' & x & Hrun' & Hf & Hres & _)
                          |(r' & s2' & _ & Hok & _)]].
      * rewrite Hrun in Hw. discriminate.
      * contradiction.
      * rewrite Hins in Hf. injection Hf as <-. exact Hres.
      * rewrite Hins in Hok. discriminate.
Qed.



Lemma notifications_not_inserts (r : AuditRecord) (obs : list nat) :
  countEvents isInsert (map (fun o => ENotify o r) obs) = 0%nat.
Proof. unfold countEvents. induction obs; simpl; auto. Qed.

Lemma onChange_plain (e : ChangeEvent) (h : string) (s : State) :
  transform (mgr s) = None -> db (mgr s) <> None ->
  (forall tr dest r, drv_insertOne drv tr dest r = Ok tt) ->
  fst (onChange drv h (encChange e) s) = Ok tt /\
  exists r,
    trace (snd (onChange drv h (encChange e) s)) =
      trace s ++ EInsert (auditCollection (mgr s)) r
              :: map (fun o => ENotify o r) (observers s).
Proof.
  intros Hn Hdb Hins.
  pose proof (createAuditDoc_plain drv e h s Hn) as Hplain. simpl in Hplain.
  destruct (onChange drv h (encChange e) s) as [res s1] eqn:Hrun.
  unfold onChange in Hrun. unfold bind at 1 in Hrun. rewrite Hplain in Hrun.
  unfold insertOne, bind, getMgr, thisDb, emit, record in Hrun; simpl in Hrun.
  destruct (db (mgr s)); [|contradiction].
  rewrite Hins in Hrun; simpl in Hrun. injection Hrun as <- <-; simpl.
  split; [reflexivity|].
  eexists. rewrite <- ?app_assoc. reflexivity.
Qed.

(** Each stream opened on a collection handles each of its notifications:
    with no transform, a connected manager and a server that accepts the
    writes, one notification is inserted as many times as there are streams
    on its collection, none when there is none, two after two calls of
    [start], and every observer is notified that many times per
    registration. *)
Theorem deliver_once_per_stream (e : ChangeEvent) (coll : string) (s : State) :
  transform (mgr s) = None -> db (mgr s) <> None ->
  (forall tr dest r, drv_insertOne drv tr dest r = Ok tt) ->
  exists d,
    trace (deliver drv coll (encChange e) s) = trace s ++ d /\
    countEvents isInsert d
      = List.length (filter (String.eqb coll) (streams s)) /\
    forall o,
      deliveriesTo o d
      = (List.length (filter (String.eqb coll) (streams s))
         * registrations o (observers s))%nat.
Proof.
  intros Hn Hdb Hins. unfold deliver, deliverAll.
  generalize (filter (String.eqb coll) (streams s)). intros l.
  assert (H : forall st,
            mgr st = mgr s -> observers st = observers s ->
            exists d,
              trace (snd (runHandlers drv l (encChange e) st)) = trace st ++ d /\
              countEvents isInsert d = List.length l /\
              forall o, deliveriesTo o d
                        = (List.length l * registrations o (observers s))%nat).
  { induction l as [|h l IH]; intros st Hm Ho; simpl.
    - exists []. rewrite app_nil_r. repeat split.
    - assert (Hn' : transform (mgr st) = None) by now rewrite Hm.
      assert (Hdb' : db (mgr st) <> None) by now rewrite Hm.
      destruct (onChange_plain e h st Hn' Hdb' Hins) as (Hok & r & Ht).
      pose proof (frame_onChange drv h (encChange e) st) as Hcfg.
      destruct (feeds_onChange drv h (encChange e) st) as [_ Hobs].
      destruct (onChange drv h (encChange e) st) as [[[]|x] st1];
        simpl in *; [|discriminate].
      unfold sameConfig in Hcfg.
      destruct (IH st1) as (d & Htd & Hc & Hd); [congruence | congruence |].
      exists ((EInsert (auditCollection (mgr st)) r
               :: map (fun o => ENotify o r) (observers st)) ++ d).
      split; [|split].
      + rewrite Htd, Ht. now rewrite <- app_assoc.
      + rewrite countEvents_app, Hc.
        change (EInsert (auditCollection (mgr st)) r
                 :: map (fun o0 => ENotify o0 r) (observers st))
          with ([EInsert (auditCollection (mgr st)) r]
                 ++ map (fun o0 => ENotify o0 r) (observers st)).
        rewrite countEvents_app, notifications_not_inserts.
        unfold countEvents; simpl. lia.
      + intros o. rewrite deliveriesTo_app, Hd.
        change (EInsert (auditCollection (mgr st)) r
                 :: map (fun o0 => ENotify o0 r) (observers st))
          with ([EInsert (auditCollection (mgr st)) r]
                 ++ map (fun o0 => ENotify o0 r) (observers st)).
        rewrite deliveriesTo_app, deliveriesTo_emit, Ho.
        unfold deliveriesTo at 1; simpl. lia. }
  now apply H.
Qed.

(** A record is filed under the collection whose feed produced it: every
    record inserted while a notification of a collection is handled carries
    that collection's name, whatever the notification holds and however
    many streams are open. *)
Theorem deliver_records_collection
        (coll : string) (change : jsval) (s : State) :
  exists d,
    trace (deliver drv coll change s) = trace s ++ d /\
    forall dest r, In (EInsert dest r) d -> collection r = coll.
Proof.
  unfold deliver, deliverAll.
  destruct (runHandlers_extends (recordsOf coll) change
              (filter (String.eqb coll) (streams s)) s) as [(d & Ht & Hd) _].
  - intros h st Hin.
    apply filter_In in Hin. destruct Hin as [_ Hh].
    apply String.eqb_eq in Hh. subst h.
    destruct (onChange_history drv coll change st) as (calls & Hcalls & Hcases).
    assert (Hc : forallb (recordsOf coll) calls = true).
    { rewrite forallb_forall in *. intros x Hx.
      specialize (Hcalls x Hx). now destruct x. }
    destruct Hcases as [(x & _ & Htr & _)
                       |[(r & s2 & x & _ & _ & _ & Htr)
                        |(r & s2 & Hrun & _ & _ & _ & Htr)]].
    + exists calls. now split.
    + eexists. split; [exact Htr|]. now rewrite forallb_app, Hc.
    + eexists. split; [exact Htr|]. rewrite forallb_app, Hc. simpl.
      destruct (createAuditDoc_steps drv change coll st) as (_ & _ & Hr & _).
      rewrite Hrun in Hr. destruct (Hr r eq_refl) as [Hcoll _].
      rewrite Hcoll, String.eqb_refl. simpl.
      clear. induction (observers st); simpl; auto.
  - exists d. split; [exact Ht|].
    intros dest r Hin. rewrite forallb_forall in Hd.
    specialize (Hd _ Hin). simpl in Hd. now apply String.eqb_eq in Hd.
Qed.

End Feeds.

Lemma insert_failure_confined_witness :
  let s := Sample.running None in
  let s1 := deliver Sample.readOnly "orders" (encChange Sample.updateEvent) s in
  streams s1 = ["orders"] /\
  exists d, trace s1 = trace s ++ d /\ countEvents isInsert d = 0%nat.
Proof.
  intros s s1.
  destruct (insert_failure_confined Sample.readOnly "orders"
              (encChange Sample.updateEvent) s (DriverError "not primary"))
    as ((_ & Hs & _) & (d & Ht & Hc & _) & _).
  - reflexivity.
  - split; [exact Hs|]. exists d. split; [exact Ht | exact Hc].
Defined.


(** After [start] was called twice the update of one order is inserted
    twice. *)
Lemma deliver_once_per_stream_witness :
  let drv := Sample.server Sample.reader false in
  let s := snd (start (Sample.running None)) in
  exists d,
    trace (deliver drv "orders" (encChange Sample.updateEvent) s) = trace s ++ d /\
    countEvents isInsert d = 2%nat.
Proof.
  intros drv s.
  destruct (deliver_once_per_stream drv Sample.updateEvent "orders" s)
    as (d & Ht & Hc & _).
  - reflexivity.
  - discriminate.
  - reflexivity.
  - exists d. split; [exact Ht | exact Hc].
Defined.

(** ** Calling [initialize] again *)

Section Reinitialize.

Variable drv : Driver.

(** The destination is looked up when a notification is handled, not when
    its stream was opened: after [initialize] has been called again with
    another destination, the streams opened before are still there and
    whatever their listeners insert goes to the new destination. *)
Theorem reinitialize_redirects
        (o : Options) (s : State) (u a : string) (colls : list string) :
  uriMissing o = false -> collectionsMissing o = false ->
  uri o = Some u -> opt_collections o = Some colls ->
  drv_construct drv u = Ok tt -> drv_connect drv (trace s) u = Ok tt ->
  opt_auditCollection o = Some a -> a <> ""%string ->
  let s' := snd (initialize drv o s) in
  streams s' = streams s /\
  forall h change,
    exists d,
      trace (snd (onChange drv h change s')) = trace s' ++ d /\
      forall dest r, In (EInsert dest r) d -> dest = a.
Proof.
  intros Hu Hc Huri Hcolls Hnew Hconn Ha Hne s'.
  destruct (initialize_after_connect drv o s u colls Hu Hc Huri Hcolls Hnew Hconn)
    as (Hm & Hs & _).
  fold s' in Hm, Hs. split; [exact Hs|].
  assert (Hdest : auditCollection (mgr s') = a).
  { rewrite Hm. unfold configure; simpl. rewrite Ha.
    apply String.eqb_neq in Hne. now rewrite Hne. }
  intros h change.
  destruct (onChange_history drv h change s') as (calls & Hcalls & Hcases).
  destruct Hcases as [(x & _ & Htr & _)
                     |[(r & s2 & x & _ & _ & _ & Htr)
                      |(r & s2 & _ & _ & _ & _ & Htr)]].
  - exists calls. split; [exact Htr|].
    intros dest r0 Hin. exfalso. eapply no_commit_in; eauto.
  - eexists. split; [exact Htr|].
    intros dest r0 Hin. exfalso. apply in_app_or in Hin.
    destruct Hin as [Hin|[Hin|[]]]; [|discriminate].
    eapply no_commit_in; eauto.
  - eexists. split; [exact Htr|].
    intros dest r0 Hin. apply in_app_or in Hin.
    destruct Hin as [Hin|[Hin|Hin]].
    + exfalso. eapply no_commit_in; eauto.
    + injection Hin as <- _. exact Hdest.
    + apply in_map_iff in Hin. destruct Hin as (o' & Ho' & _). discriminate.
Qed.

End Reinitialize.

Lemma reinitialize_redirects_witness :
  let drv := Sample.server Sample.reader false in
  let s' := snd (initialize drv Sample.redirect (Sample.running None)) in
  streams s' = ["orders"] /\
  exists d,
    trace (snd (onChange drv "orders" (encChange Sample.updateEvent) s'))
    = trace s' ++ d /\
    forall dest r, In (EInsert dest r) d -> dest = "audit_v2"%string.
Proof.
  intros drv s'.
  destruct (reinitialize_redirects drv Sample.redirect (Sample.running None)
              "mongodb://localhost:27017/shop" "audit_v2" ["orders"]
              eq_refl eq_refl eq_refl eq_refl eq_refl eq_refl eq_refl)
    as [Hs Hd].
  - discriminate.
  - split; [exact Hs|]. exact (Hd "orders" (encChange Sample.updateEvent)).
Defined.
